(** * VFD-FC01-Monitor: the Modbus transaction layer and the polling loop

    A shallow embedding of [vfd_modbus.py] and of the communication and
    polling parts of [vfd_monitor_tk.py], with the properties of the
    specification stated over it.

    Conventions of the embedding:
    - a Python [int] is a [Z]; a register list is a [list Z];
    - [str] is [string]; the dict literal [EXCEPTION_DICT] is a [gmap];
    - a raised exception is a value of [PyException]; a call that can
      raise returns a [Result];
    - [time.time()] readings are rationals (seconds) and their
      differences are taken exactly; the floats computed by
      [freq_raw / 100.0] and by [interval_ms / 1000.0] are IEEE-754
      binary64 values ([spec_float]), the interval being kept as the
      rational value of its float;
    - the serial client of pymodbus is not part of the program: what it
      answers to each call is taken from a script indexed by the number
      of calls made so far. *)

From Stdlib Require Import ZArith QArith Qminmax Qabs Lia Bool.
From Stdlib Require Import Ascii String DecimalString.
From Stdlib Require Import SpecFloat.
From stdpp Require Import base option list gmap.

Open Scope string_scope.
Open Scope Z_scope.

(** ** Python values shared by both files *)

Module Py.

(** The exception classes that occur in the modelled code.  [str(e)] of
    each is its message. *)
Inductive PyException : Type :=
| IOError (msg : string)
| ValueError (msg : string)
| IndexError (msg : string)
| AttributeError (msg : string)
| OtherException (cls : string) (msg : string).

Definition str (e : PyException) : string :=
  match e with
  | IOError m | ValueError m | IndexError m | AttributeError m => m
  | OtherException _ m => m
  end.

Inductive Result (A : Type) : Type :=
| Ok (a : A)
| Raise (e : PyException).
Arguments Ok {A} a.
Arguments Raise {A} e.

(** *** Integer formatting: the format specification [02X] *)

Definition hex_upper (d : Z) : ascii :=
  match d with
  | 0 => "0" | 1 => "1" | 2 => "2" | 3 => "3" | 4 => "4" | 5 => "5"
  | 6 => "6" | 7 => "7" | 8 => "8" | 9 => "9" | 10 => "A" | 11 => "B"
  | 12 => "C" | 13 => "D" | 14 => "E" | _ => "F"
  end%char.

Fixpoint hex_digits (fuel : nat) (n : Z) (acc : string) : string :=
  match fuel with
  | O => acc
  | S fuel' =>
      if n =? 0 then acc
      else hex_digits fuel' (n / 16) (String (hex_upper (n mod 16)) acc)
  end.

(** Upper-case hexadecimal digits of a non-negative integer, ["0"] for 0. *)
Definition to_hex (n : Z) : string :=
  if n =? 0 then "0"
  else hex_digits (S (Z.to_nat (Z.log2 n))) n "".

Fixpoint zeros (k : nat) : string :=
  match k with
  | O => ""
  | S k' => String "0"%char (zeros k')
  end.

(** [format(n, "0wX")]: sign first, then zeros up to the width, then the
    digits. *)
Definition format_0X (width : nat) (n : Z) : string :=
  let sign := if n <? 0 then "-" else "" in
  let digits := to_hex (Z.abs n) in
  let used := (String.length sign + String.length digits)%nat in
  sign ++ zeros (width - used) ++ digits.

Definition format_02X : Z -> string := format_0X 2.
Definition format_04X : Z -> string := format_0X 4.

(** [str(n)] of an integer. *)
Definition str_int (n : Z) : string := NilZero.string_of_int (Z.to_int n).

Definition newline : string := String (ascii_of_nat 10) "".

(** *** Floats: IEEE-754 binary64 *)

Definition prec : Z := 53.
Definition emax : Z := 1024.

(** Conversion of an [int] operand to [float], rounding to nearest even;
    an integer beyond the range raises [OverflowError]. *)
Definition float_of_int (n : Z) : Result spec_float :=
  match binary_normalize prec emax n 0 false with
  | S754_infinity _ =>
      Raise (OtherException "OverflowError"
                            "int too large to convert to float")
  | f => Ok f
  end.

Definition float_100 : spec_float := binary_normalize prec emax 100 0 false.

(** [n / 100.0] for an integer [n]. *)
Definition div_100 (n : Z) : Result spec_float :=
  match float_of_int n with
  | Ok f => Ok (SFdiv prec emax f float_100)
  | Raise e => Raise e
  end.

Definition float_1000 : spec_float := binary_normalize prec emax 1000 0 false.

(** [n / 1000.0] for an integer [n]. *)
Definition div_1000 (n : Z) : Result spec_float :=
  match float_of_int n with
  | Ok f => Ok (SFdiv prec emax f float_1000)
  | Raise e => Raise e
  end.

(** The value of a finite binary float. *)
Definition SF2Q (f : spec_float) : Q :=
  match f with
  | S754_finite s m e =>
      let v := if (0 <=? e) then inject_Z (Z.pos m * 2 ^ e)
               else (Z.pos m # Pos.pow 2 (Z.to_pos (- e))) in
      if s then Qopp v else v
  | _ => 0
  end.

(** [max(0, x)]: the first argument unless the second is greater. *)
Definition max0 (x : Q) : Q := if Qlt_le_dec 0 x then x else 0%Q.

(** *** [time.sleep]

    The duration is taken to a signed 64-bit count of nanoseconds: a
    negative duration raises [ValueError], and a duration of [2^63] ns
    (about 9.2e9 s) or more raises [OverflowError]. *)
Definition sleep_limit : Q := 9223372036854775808 # 1000000000.

Definition sleep_check (d : Q) : Result unit :=
  if Qlt_le_dec d 0
  then Raise (ValueError "sleep length must be non-negative")
  else if Qlt_le_dec d sleep_limit
       then Ok tt
       else Raise (OtherException
                     "OverflowError"
                     "timestamp too large to convert to C _PyTime_t").

End Py.

Import Py.

(** ** vfd_modbus.py *)

Module VfdModbus.

Definition EXCEPTION_DICT : gmap Z string :=
  list_to_map
    [ (0x01, "Illegal command");
      (0x02, "Illegal data address");
      (0x03, "Illegal value (bad frame)");
      (0x04, "Operation failed");
      (0x05, "Password error");
      (0x06, "Data frame error (CRC/format)");
      (0x07, "Write not allowed");
      (0x08, "Parameter cannot be changed during running");
      (0x09, "Password protection active") ].

Definition decode_exception_code (code : Z) : string :=
  default ("Unknown exception code 0x" ++ format_02X code)
          (EXCEPTION_DICT !! code).

(** *** The serial client (pymodbus), seen from this file

    A response object is used through [isError()], the optional
    attribute [exception_code], [str(rr)] and [registers]. *)
Record Response : Type := {
  isError : bool;
  exception_code : option Z;
  text : string;
  registers : list Z
}.

Inductive Request : Type :=
| ReadHolding (address count : Z)
| WriteSingle (address value : Z).

Inductive ClientOutcome : Type :=
| Returned (rr : Response)
| Raised (e : PyException).

(** What the client does at its [n]-th call, and how long the call takes. *)
Definition Client : Type := nat -> Request -> ClientOutcome * Q.

(** The state the transaction layer acts on. *)
Record World : Type := {
  now : Q;
  wire : list Request;
  lock : bool;
  port_open : bool
}.

Definition M (A : Type) : Type := World -> Result A * World.

Definition ret {A} (a : A) : M A := fun w => (Ok a, w).
Definition raise {A} (e : PyException) : M A := fun w => (Raise e, w).
Definition bind {A B} (m : M A) (k : A -> M B) : M B :=
  fun w => match m w with
           | (Ok a, w') => k a w'
           | (Raise e, w') => (Raise e, w')
           end.
(** [try: m  except Exception as e: h e] *)
Definition try_except {A} (m : M A) (h : PyException -> M A) : M A :=
  fun w => match m w with
           | (Ok a, w') => (Ok a, w')
           | (Raise e, w') => h e w'
           end.

Definition set_lock (b : bool) (w : World) : World :=
  {| now := now w; wire := wire w; lock := b; port_open := port_open w |}.

(** [with self.lock: body].  The lock is taken on entry and given back on
    every way out of the body.  Within one thread of control the lock is
    free on entry; waiting for another holder is the subject of
    [Module Interleaving]. *)
Definition with_lock {A} (body : M A) : M A :=
  fun w => let '(r, w') := body (set_lock true w) in (r, set_lock false w').

Definition sleep (d : Q) : M unit :=
  fun w => (Ok tt, {| now := (now w + d)%Q; wire := wire w;
                      lock := lock w; port_open := port_open w |}).

Definition settle : Q := 2 # 100.

Section WithClient.
Variable client : Client.

Definition call (rq : Request) : M Response :=
  fun w =>
    let '(o, d) := client (length (wire w)) rq in
    let w' := {| now := (now w + d)%Q; wire := wire w ++ [rq];
                 lock := lock w; port_open := port_open w |} in
    match o with
    | Returned rr => (Ok rr, w')
    | Raised e => (Raise e, w')
    end.

Definition ex_msg (rr : Response) : string :=
  match exception_code rr with
  | Some c => decode_exception_code c
  | None => text rr
  end.

(** The part of [read_regs] and [write_reg] after the call returned. *)
Definition check {A} (rr : Response) (value : A) : M A :=
  if isError rr then raise (IOError ("VFD Exception: " ++ ex_msg rr))
  else ret value.

Definition transact (rq : Request) : M Response :=
  try_except (call rq)
             (fun e => raise (IOError ("Comm error: " ++ str e))).

Definition read_regs (addr count : Z) : M (list Z) :=
  with_lock
    (bind (sleep settle) (fun _ =>
     bind (transact (ReadHolding addr count)) (fun rr =>
     check rr (registers rr)))).

(** [value] is an [int] at both call sites, so [int(value)] is [value]. *)
Definition write_reg (addr value : Z) : M bool :=
  with_lock
    (bind (sleep settle) (fun _ =>
     bind (transact (WriteSingle addr value)) (fun wr =>
     check wr true))).
End WithClient.

Definition close : M unit :=
  with_lock (fun w => (Ok tt, {| now := now w; wire := wire w;
                                 lock := lock w; port_open := false |})).


End VfdModbus.

Import VfdModbus.

(** ** vfd_monitor_tk.py *)

Module VfdMonitor.

Definition REG_FREQ : Z := 0x3001.
Definition REG_BUS_VOLT : Z := 0x3002.
Definition REG_OUT_VOLT : Z := 0x3003.
Definition REG_OUT_CURR : Z := 0x3004.
Definition REG_SPEED : Z := 0x3005.

Definition REG_CONTROL : Z := 0x2000.
Definition REG_SET_FREQ : Z := 0x2001.

(** The dict put on the queue with a ["data"] message. *)
Record Snapshot : Type := {
  ts : Q;
  freq : option spec_float;
  bus : Z;
  out : Z;
  curr : Z;
  speed : Z
}.

(** The tuples [(msgtype, payload)] of [ui_queue]. *)
Inductive Msg : Type :=
| MsgData (d : Snapshot)
| MsgFault (payload : string)
| MsgLog (payload : string).

(** What a started thread runs. *)
Inductive Target : Type :=
| PollLoop
| ControlJob (code : Z)
| SetFreqJob (v : Z).

Record Thread : Type := {
  target : Target;
  is_alive : bool
}.

(** The fields of [VFDModbus] that are plain data; its lock and its
    client are in [World]. *)
Record VFDModbus : Type := {
  slave : Z
}.

(** [VFDMonitorApp], with the widgets it writes to and the threads it
    has started. *)
Record App : Type := {
  modbus : option VFDModbus;
  poll_thread : option nat;
  poll_stop_event : bool;
  ui_queue : list Msg;
  last_fault_msg : option string;
  poll_interval : Q;
  poll_entry : string;
  freq_set_entry : string;
  connect_btn : string;
  log_text : list string;
  fault_tree : list (string * string);
  errors_shown : list (string * string);
  threads : list Thread;
  world : World
}.

Definition set_modbus (v : option VFDModbus) (a : App) : App :=
  {| modbus := v; poll_thread := poll_thread a;
     poll_stop_event := poll_stop_event a; ui_queue := ui_queue a;
     last_fault_msg := last_fault_msg a; poll_interval := poll_interval a;
     poll_entry := poll_entry a; freq_set_entry := freq_set_entry a;
     connect_btn := connect_btn a; log_text := log_text a;
     fault_tree := fault_tree a; errors_shown := errors_shown a;
     threads := threads a; world := world a |}.

Definition set_poll_thread (v : option nat) (a : App) : App :=
  {| modbus := modbus a; poll_thread := v;
     poll_stop_event := poll_stop_event a; ui_queue := ui_queue a;
     last_fault_msg := last_fault_msg a; poll_interval := poll_interval a;
     poll_entry := poll_entry a; freq_set_entry := freq_set_entry a;
     connect_btn := connect_btn a; log_text := log_text a;
     fault_tree := fault_tree a; errors_shown := errors_shown a;
     threads := threads a; world := world a |}.

Definition set_poll_stop_event (v : bool) (a : App) : App :=
  {| modbus := modbus a; poll_thread := poll_thread a;
     poll_stop_event := v; ui_queue := ui_queue a;
     last_fault_msg := last_fault_msg a; poll_interval := poll_interval a;
     poll_entry := poll_entry a; freq_set_entry := freq_set_entry a;
     connect_btn := connect_btn a; log_text := log_text a;
     fault_tree := fault_tree a; errors_shown := errors_shown a;
     threads := threads a; world := world a |}.

Definition set_ui_queue (v : list Msg) (a : App) : App :=
  {| modbus := modbus a; poll_thread := poll_thread a;
     poll_stop_event := poll_stop_event a; ui_queue := v;
     last_fault_msg := last_fault_msg a; poll_interval := poll_interval a;
     poll_entry := poll_entry a; freq_set_entry := freq_set_entry a;
     connect_btn := connect_btn a; log_text := log_text a;
     fault_tree := fault_tree a; errors_shown := errors_shown a;
     threads := threads a; world := world a |}.

Definition set_last_fault_msg (v : option string) (a : App) : App :=
  {| modbus := modbus a; poll_thread := poll_thread a;
     poll_stop_event := poll_stop_event a; ui_queue := ui_queue a;
     last_fault_msg := v; poll_interval := poll_interval a;
     poll_entry := poll_entry a; freq_set_entry := freq_set_entry a;
     connect_btn := connect_btn a; log_text := log_text a;
     fault_tree := fault_tree a; errors_shown := errors_shown a;
     threads := threads a; world := world a |}.

Definition set_poll_interval (v : Q) (a : App) : App :=
  {| modbus := modbus a; poll_thread := poll_thread a;
     poll_stop_event := poll_stop_event a; ui_queue := ui_queue a;
     last_fault_msg := last_fault_msg a; poll_interval := v;
     poll_entry := poll_entry a; freq_set_entry := freq_set_entry a;
     connect_btn := connect_btn a; log_text := log_text a;
     fault_tree := fault_tree a; errors_shown := errors_shown a;
     threads := threads a; world := world a |}.

Definition set_connect_btn (v : string) (a : App) : App :=
  {| modbus := modbus a; poll_thread := poll_thread a;
     poll_stop_event := poll_stop_event a; ui_queue := ui_queue a;
     last_fault_msg := last_fault_msg a; poll_interval := poll_interval a;
     poll_entry := poll_entry a; freq_set_entry := freq_set_entry a;
     connect_btn := v; log_text := log_text a;
     fault_tree := fault_tree a; errors_shown := errors_shown a;
     threads := threads a; world := world a |}.

Definition set_log_text (v : list string) (a : App) : App :=
  {| modbus := modbus a; poll_thread := poll_thread a;
     poll_stop_event := poll_stop_event a; ui_queue := ui_queue a;
     last_fault_msg := last_fault_msg a; poll_interval := poll_interval a;
     poll_entry := poll_entry a; freq_set_entry := freq_set_entry a;
     connect_btn := connect_btn a; log_text := v;
     fault_tree := fault_tree a; errors_shown := errors_shown a;
     threads := threads a; world := world a |}.

Definition set_fault_tree (v : list (string * string)) (a : App) : App :=
  {| modbus := modbus a; poll_thread := poll_thread a;
     poll_stop_event := poll_stop_event a; ui_queue := ui_queue a;
     last_fault_msg := last_fault_msg a; poll_interval := poll_interval a;
     poll_entry := poll_entry a; freq_set_entry := freq_set_entry a;
     connect_btn := connect_btn a; log_text := log_text a;
     fault_tree := v; errors_shown := errors_shown a;
     threads := threads a; world := world a |}.

Definition set_errors_shown (v : list (string * string)) (a : App) : App :=
  {| modbus := modbus a; poll_thread := poll_thread a;
     poll_stop_event := poll_stop_event a; ui_queue := ui_queue a;
     last_fault_msg := last_fault_msg a; poll_interval := poll_interval a;
     poll_entry := poll_entry a; freq_set_entry := freq_set_entry a;
     connect_btn := connect_btn a; log_text := log_text a;
     fault_tree := fault_tree a; errors_shown := v;
     threads := threads a; world := world a |}.

Definition set_threads (v : list Thread) (a : App) : App :=
  {| modbus := modbus a; poll_thread := poll_thread a;
     poll_stop_event := poll_stop_event a; ui_queue := ui_queue a;
     last_fault_msg := last_fault_msg a; poll_interval := poll_interval a;
     poll_entry := poll_entry a; freq_set_entry := freq_set_entry a;
     connect_btn := connect_btn a; log_text := log_text a;
     fault_tree := fault_tree a; errors_shown := errors_shown a;
     threads := v; world := world a |}.

Definition set_world (v : World) (a : App) : App :=
  {| modbus := modbus a; poll_thread := poll_thread a;
     poll_stop_event := poll_stop_event a; ui_queue := ui_queue a;
     last_fault_msg := last_fault_msg a; poll_interval := poll_interval a;
     poll_entry := poll_entry a; freq_set_entry := freq_set_entry a;
     connect_btn := connect_btn a; log_text := log_text a;
     fault_tree := fault_tree a; errors_shown := errors_shown a;
     threads := threads a; world := v |}.

(** How long [Thread.join(timeout=1.0)] waited and what it found. *)
Inductive JoinOutcome : Type :=
| Joined (after : Q)
| TimedOut.

Definition put (m : Msg) (a : App) : App :=
  set_ui_queue (ui_queue a ++ [m]) a.

(** [threading.Thread(target=..., daemon=True).start()]; the handle is
    the position in [threads]. *)
Definition start_thread (t : Target) (a : App) : nat * App :=
  (length (threads a),
   set_threads (threads a ++ [{| target := t; is_alive := true |}]) a).

(** The thread at position [k] has returned from its target. *)
Definition thread_exit (k : nat) (a : App) : App :=
  set_threads
    (alter (fun t => {| target := target t; is_alive := false |}) k
           (threads a)) a.

Definition thread_is_alive (k : nat) (a : App) : bool :=
  match threads a !! k with
  | Some t => is_alive t
  | None => false
  end.

Definition on_world {A} (m : M A) (a : App) : Result A * App :=
  let '(r, w) := m (world a) in (r, set_world w a).

Definition time_time (a : App) : Q := now (world a).

(** The clock moves on by [d]: a wait that returns. *)
Definition elapse (d : Q) (a : App) : App :=
  snd (on_world (sleep d) a).

(** [time.sleep(d)] *)
Definition time_sleep (d : Q) (a : App) : Result unit * App :=
  match sleep_check d with
  | Ok _ => (Ok tt, elapse d a)
  | Raise e => (Raise e, a)
  end.

(** [bus, outv, curr, speed = regs] *)
Definition unpack4 (regs : list Z) : Result (Z * Z * Z * Z) :=
  match regs with
  | [b; o; c; s] => Ok (b, o, c, s)
  | _ =>
      if (length regs <? 4)%nat
      then Raise (ValueError
                    ("not enough values to unpack (expected 4, got "
                     ++ str_int (Z.of_nat (length regs)) ++ ")"))
      else Raise (ValueError "too many values to unpack (expected 4)")
  end.

Section WithEnvironment.
(** The serial client. *)
Variable client : Client.
(** [datetime.now().strftime("%H:%M:%S")] at a given clock reading. *)
Variable hms : Q -> string.
(** The built-in [int] applied to the text of an entry widget. *)
Variable int_of_text : string -> Result Z.

Definition log (msg : string) (a : App) : App :=
  set_log_text
    (log_text a ++ ["[" ++ hms (time_time a) ++ "] " ++ msg ++ newline]) a.

(** [self.modbus.read_regs(addr, count)] *)
Definition modbus_read_regs (addr count : Z) (a : App)
  : Result (list Z) * App :=
  match modbus a with
  | Some _ => on_world (read_regs client addr count) a
  | None =>
      (Raise (AttributeError
                "'NoneType' object has no attribute 'read_regs'"), a)
  end.

(** [self.modbus.write_reg(addr, value)] *)
Definition modbus_write_reg (addr value : Z) (a : App)
  : Result bool * App :=
  match modbus a with
  | Some _ => on_world (write_reg client addr value) a
  | None =>
      (Raise (AttributeError
                "'NoneType' object has no attribute 'write_reg'"), a)
  end.

(** *** Connect / Disconnect *)

Definition disconnect (j : JoinOutcome) (a : App) : App :=
  let a :=
    match poll_thread a with
    | Some k =>
        let a := set_poll_stop_event true a in
        match j with
        | Joined d => thread_exit k (elapse d a)
        | TimedOut => elapse 1 a
        end
    | None => a
    end in
  let a := set_poll_thread None a in
  let a :=
    match modbus a with
    | Some _ => snd (on_world close a)
    | None => a
    end in
  let a := set_modbus None a in
  let a := set_connect_btn "Connect" a in
  log "Disconnected" a.

(** *** Write operations *)

Definition control_job (code : Z) (a : App) : App :=
  match modbus_write_reg REG_CONTROL code a with
  | (Ok _, a) =>
      put (MsgLog ("Control 0x" ++ format_04X code ++ " sent")) a
  | (Raise e, a) => put (MsgFault ("Control failed: " ++ str e)) a
  end.

Definition send_control (code : Z) (a : App) : App :=
  match modbus a with
  | None => log "Not connected" a
  | Some _ => snd (start_thread (ControlJob code) a)
  end.

Definition set_freq_job (v : Z) (a : App) : App :=
  match modbus_write_reg REG_SET_FREQ v a with
  | (Ok _, a) => put (MsgLog ("Freq set to " ++ str_int v)) a
  | (Raise e, a) => put (MsgFault ("Set freq failed: " ++ str e)) a
  end.

Definition set_freq (a : App) : App :=
  match modbus a with
  | None => log "Not connected" a
  | Some _ =>
      match int_of_text (freq_set_entry a) with
      | Raise _ => log "Invalid frequency input" a
      | Ok v => snd (start_thread (SetFreqJob v) a)
      end
  end.

(** *** Polling loop *)

Definition start_polling (a : App) : Result unit * App :=
  if match poll_thread a with
     | Some k => thread_is_alive k a
     | None => false
     end
  then (Ok tt, a)
  else
    match int_of_text (poll_entry a) with
    | Raise e => (Raise e, a)
    | Ok interval_ms =>
        match div_1000 interval_ms with
        | Raise e => (Raise e, a)
        | Ok interval =>
            let a := set_poll_interval (SF2Q interval) a in
            let a := set_poll_stop_event false a in
            let '(k, a) := start_thread PollLoop a in
            let a := set_poll_thread (Some k) a in
            (Ok tt,
             log ("Started polling every " ++ str_int interval_ms ++ " ms")
                 a)
        end
    end.

(** The inner [try] of [poll_loop]: the frequency, or [None]. *)
Definition read_freq (a : App) : option spec_float * App :=
  match modbus_read_regs REG_FREQ 1 a with
  | (Ok (freq_raw :: _), a) =>
      match div_100 freq_raw with
      | Ok f => (Some f, a)
      | Raise _ => (None, a)
      end
  | (Ok [], a) => (None, a)
  | (Raise _, a) => (None, a)
  end.

(** The outer [try] of [poll_loop]: one message is put on the queue. *)
Definition poll_sample (a : App) : App :=
  match modbus_read_regs REG_BUS_VOLT 4 a with
  | (Ok regs, a) =>
      match unpack4 regs with
      | Ok (bus, outv, curr, speed) =>
          let '(freq, a) := read_freq a in
          put (MsgData {| ts := time_time a; freq := freq; bus := bus;
                          out := outv; curr := curr; speed := speed |}) a
      | Raise e => put (MsgFault (str e)) a
      end
  | (Raise e, a) => put (MsgFault (str e)) a
  end.

(** What the last statement of the loop body sleeps, given the reading
    [t0] taken at the top of the body. *)
Definition cadence_sleep (t0 : Q) (a : App) : Q :=
  max0 (poll_interval a - (time_time a - t0))%Q.

(** The body of the [while] of [poll_loop]; the sleep is outside the
    [try]. *)
Definition poll_body (a : App) : Result unit * App :=
  let t0 := time_time a in
  let a := poll_sample a in
  time_sleep (cadence_sleep t0 a) a.

(** The state that the body of the [while] leaves. *)
Definition poll_cycle (a : App) : App := snd (poll_body a).

(** The condition of the [while]. *)
Definition poll_condition (a : App) : bool :=
  negb (poll_stop_event a) && bool_decide (is_Some (modbus a)).

(** One turn of the [while]: [None] when the loop is left at its head,
    and what the body does otherwise. *)
Definition poll_step (a : App) : option (Result unit * App) :=
  if poll_condition a then Some (poll_body a) else None.

(** How [poll_loop] stands: left at its head, still going round, or ended
    by an exception that nothing catches. *)
Inductive LoopStatus : Type :=
| Exited
| Looping
| Died (e : PyException).

(** [poll_loop], for at most [n] turns. *)
Fixpoint poll_loop (n : nat) (a : App) : LoopStatus * App :=
  match n with
  | O => (Looping, a)
  | S n' =>
      match poll_step a with
      | Some (Ok _, a') => poll_loop n' a'
      | Some (Raise e, a') => (Died e, a')
      | None => (Exited, a)
      end
  end.

(** The thread at position [k] runs [poll_loop] for at most [n] turns;
    the thread has ended when the loop is left or an exception ends it. *)
Definition run_poll_thread (k n : nat) (a : App) : App :=
  match poll_loop n a with
  | (Looping, a') => a'
  | (Exited, a') | (Died _, a') => thread_exit k a'
  end.

(** *** Fault popup *)

Definition show_fault (msg : string) (a : App) : App :=
  let now_ := hms (time_time a) in
  let a := log ("? " ++ msg) a in
  let a := set_fault_tree (fault_tree a ++ [(now_, msg)]) a in
  if bool_decide (Some msg <> last_fault_msg a)
  then
    let a := set_last_fault_msg (Some msg) a in
    set_errors_shown (errors_shown a ++ [("Modbus / VFD Fault", msg)]) a
  else a.

End WithEnvironment.


End VfdMonitor.

Import VfdMonitor.

(** ** Several threads on one [VFDModbus] object

    The poller and the command jobs call [read_regs], [write_reg] and
    [close] of the same object from different threads.  Each call is cut
    at the points where another thread can run: before the [with], during
    [time.sleep(0.02)], during the client call, and after it. *)

Module Interleaving.

Inductive Op : Type :=
| OpRead (addr count : Z)
| OpWrite (addr value : Z)
| OpClose.

(** What a call returns. *)
Inductive Value : Type :=
| VRegisters (regs : list Z)
| VTrue
| VNone.

(** Where a thread is in its call. *)
Inductive Phase : Type :=
| Waiting
| Settling
| OnWire
| Answered (o : ClientOutcome)
| Closing
| Left (r : Result Value).

(** A thread in a call of the shared object. *)
Record Task : Type := mkTask {
  op : Op;
  phase : Phase
}.

Record State : Type := {
  lock_held : bool;
  tasks : gmap nat Task
}.

Definition initial : State := {| lock_held := false; tasks := ∅ |}.

(** The statements after the client call, up to the end of the [with]. *)
Definition finish (op : Op) (o : ClientOutcome) : Result Value :=
  match o with
  | Raised e => Raise (IOError ("Comm error: " ++ str e))
  | Returned rr =>
      if isError rr
      then Raise (IOError ("VFD Exception: " ++ ex_msg rr))
      else match op with
           | OpRead _ _ => Ok (VRegisters (registers rr))
           | OpWrite _ _ => Ok VTrue
           | OpClose => Ok VNone
           end
  end.

(** The first phase inside the [with]. *)
Definition entered (op : Op) : Phase :=
  match op with
  | OpRead _ _ | OpWrite _ _ => Settling
  | OpClose => Closing
  end.

Inductive step : State -> State -> Prop :=
| step_call (s : State) (i : nat) (op : Op) :
    tasks s !! i = None ->
    step s {| lock_held := lock_held s;
              tasks := <[i := mkTask op Waiting]> (tasks s) |}
| step_acquire (s : State) (i : nat) (op : Op) :
    tasks s !! i = Some (mkTask op Waiting) ->
    lock_held s = false ->
    step s {| lock_held := true;
              tasks := <[i := mkTask op (entered op)]> (tasks s) |}
| step_settled (s : State) (i : nat) (op : Op) :
    tasks s !! i = Some (mkTask op Settling) ->
    step s {| lock_held := lock_held s;
              tasks := <[i := mkTask op OnWire]> (tasks s) |}
| step_answer (s : State) (i : nat) (op : Op) (o : ClientOutcome) :
    tasks s !! i = Some (mkTask op OnWire) ->
    step s {| lock_held := lock_held s;
              tasks := <[i := mkTask op (Answered o)]> (tasks s) |}
| step_leave (s : State) (i : nat) (op : Op) (o : ClientOutcome) :
    tasks s !! i = Some (mkTask op (Answered o)) ->
    step s {| lock_held := false;
              tasks := <[i := mkTask op (Left (finish op o))]> (tasks s) |}
| step_closed (s : State) (i : nat) :
    tasks s !! i = Some (mkTask OpClose Closing) ->
    step s {| lock_held := false;
              tasks := <[i := mkTask OpClose (Left (Ok VNone))]> (tasks s) |}.

Inductive reachable : State -> Prop :=
| reachable_initial : reachable initial
| reachable_step (s s' : State) : reachable s -> step s s' -> reachable s'.

(** The thread is inside the [with] block. *)
Definition in_section (t : Task) : bool :=
  match phase t with
  | Settling | OnWire | Answered _ | Closing => true
  | Waiting | Left _ => false
  end.

(** The thread is inside a register transaction: from the settling delay
    to the check of the response. *)
Definition in_flight (t : Task) : bool :=
  match phase t with
  | Settling | OnWire | Answered _ => true
  | Waiting | Closing | Left _ => false
  end.

End Interleaving.

Import Interleaving.

(** ** Notions the properties are stated with *)

Module Props.

(** A byte as two upper-case hexadecimal digits. *)
Definition upper_hex_alphabet : string := "0123456789ABCDEF".

Definition two_digit_upper_hex (c : Z) : string :=
  match String.get (Z.to_nat (c / 16)) upper_hex_alphabet,
        String.get (Z.to_nat (c mod 16)) upper_hex_alphabet with
  | Some hi, Some lo => String hi (String lo "")
  | _, _ => ""
  end.

(** The check of one byte for the unknown-code message. *)
Definition unknown_code_ok (c : Z) : bool :=
  if (1 <=? c) && (c <=? 9) then true
  else String.eqb (decode_exception_code c)
                  ("Unknown exception code 0x" ++ two_digit_upper_hex c).

(** Two bytes decode to different messages unless they are the same. *)
Definition distinct_or_same (c1 c2 : Z) : bool :=
  negb (String.eqb (decode_exception_code c1) (decode_exception_code c2))
  || (c1 =? c2).

(** [p] holds of [z], ..., [z + n - 1]. *)
Fixpoint all_from (n : nat) (z : Z) (p : Z -> bool) : bool :=
  match n with
  | O => true
  | S k => p z && all_from k (z + 1) p
  end.

(** [p] holds of [0], ..., [n - 1]. *)
Definition all_below (n : Z) (p : Z -> bool) : bool :=
  all_from (Z.to_nat n) 0 p.

(** The world after one transaction that started in [w]. *)
Definition after_transaction (client : Client) (rq : Request) (w : World)
  : World :=
  {| now := (now w + settle + snd (client (length (wire w)) rq))%Q;
     wire := wire w ++ [rq];
     lock := false;
     port_open := port_open w |}.

(** What a transaction raises or lets through, from what the client did. *)
Definition normalized (o : ClientOutcome) : Result Response :=
  match o with
  | Raised e => Raise (IOError ("Comm error: " ++ str e))
  | Returned rr =>
      if isError rr
      then Raise (IOError ("VFD Exception: " ++ ex_msg rr))
      else Ok rr
  end.

Definition starts_with (p s : string) : Prop := exists t, s = p ++ t.

(** What the inner [try] of [poll_loop] makes of the frequency read. *)
Definition freq_of (r : Result (list Z)) : option spec_float :=
  match r with
  | Ok (freq_raw :: _) =>
      match div_100 freq_raw with
      | Ok f => Some f
      | Raise _ => None
      end
  | Ok [] => None
  | Raise _ => None
  end.

(** The time taken by the transactions [rqs], the first of which is the
    [n]-th call of the client. *)
Fixpoint time_of_calls (client : Client) (n : nat) (rqs : list Request) : Q :=
  match rqs with
  | [] => 0
  | rq :: rest =>
      (settle + snd (client n rq) + time_of_calls client (S n) rest)%Q
  end.

(** [f] is [r / 100] rounded: finite, and off by at most [2^-53] of it. *)
Definition rounded_hundredth (r : Z) (f : spec_float) : bool :=
  match f with
  | S754_zero false => r =? 0
  | S754_finite false _ _ =>
      Qle_bool (Qabs (SF2Q f - (r # 100)))
               ((r # 100) * (1 # Pos.pow 2 53))
  | _ => false
  end.

(** The conversion of [r] to a float succeeds. *)
Definition converts (r : Z) : bool :=
  match float_of_int r with
  | Ok _ => true
  | Raise _ => false
  end.

(** The faults that are shown in a popup: those that differ from the
    fault before them, the first being compared with [last]. *)
Fixpoint presented (last : option string) (msgs : list string) : list string :=
  match msgs with
  | [] => []
  | m :: rest =>
      if bool_decide (Some m = last) then presented (Some m) rest
      else m :: presented (Some m) rest
  end.

(** [show_fault] for each fault of a sequence, in order. *)
Definition show_faults (hms : Q -> string) (msgs : list string) (a : App)
  : App :=
  fold_left (fun a m => show_fault hms m a) msgs a.

Definition fault_title : string := "Modbus / VFD Fault".

(** The state of the polling scheduler: its thread handle, its stop event
    and the threads started so far. *)
Definition scheduler (a : App) : option nat * bool * list Thread :=
  (poll_thread a, poll_stop_event a, threads a).

(** The line that [log] appends. *)
Definition log_line (hms : Q -> string) (a : App) (msg : string) : string :=
  "[" ++ hms (time_time a) ++ "] " ++ msg ++ newline.

(** A clock display and an [int] for the sample states. *)
Definition sample_hms : Q -> string := fun _ => "12:00:00".

Definition sample_int : string -> Result Z :=
  fun s => if String.eqb s "500" then Ok 500
           else if String.eqb s "5000" then Ok 5000
           else Raise (ValueError "invalid literal for int() with base 10").

(** What holds of the lock in every reachable state. *)
Definition Inv (s : State) : Prop :=
  (forall i j ti tj,
      tasks s !! i = Some ti -> tasks s !! j = Some tj ->
      in_section ti = true -> in_section tj = true -> i = j) /\
  (lock_held s = false ->
   forall i t, tasks s !! i = Some t -> in_section t = false) /\
  (lock_held s = true ->
   exists i t, tasks s !! i = Some t /\ in_section t = true).

(** *** Sample states and clients *)

(** Two threads: a read on the wire, and a write waiting for the lock. *)
Definition busy_read : Op := OpRead 0x3002 4.
Definition busy_write : Op := OpWrite 0x2000 5.

Definition busy_1 : State :=
  {| lock_held := false; tasks := <[0%nat := mkTask busy_read Waiting]> ∅ |}.
Definition busy_2 : State :=
  {| lock_held := false;
     tasks := <[1%nat := mkTask busy_write Waiting]> (tasks busy_1) |}.
Definition busy_3 : State :=
  {| lock_held := true;
     tasks := <[0%nat := mkTask busy_read Settling]> (tasks busy_2) |}.
Definition busy_state : State :=
  {| lock_held := true;
     tasks := <[0%nat := mkTask busy_read OnWire]> (tasks busy_3) |}.



Definition idle_world : World :=
  {| now := 0; wire := []; lock := false; port_open := true |}.

(** A monitor connected to slave 1 and polling every 500 ms. *)
Definition polling_app : App :=
  {| modbus := Some {| slave := 1 |};
     poll_thread := Some 0%nat;
     poll_stop_event := false;
     ui_queue := [];
     last_fault_msg := None;
     poll_interval := 500 # 1000;
     poll_entry := "500";
     freq_set_entry := "5000";
     connect_btn := "Disconnect";
     log_text := [];
     fault_tree := [];
     errors_shown := [];
     threads := [{| target := PollLoop; is_alive := true |}];
     world := idle_world |}.

(** A monitor that was never connected. *)
Definition fresh_app : App :=
  {| modbus := None;
     poll_thread := None;
     poll_stop_event := false;
     ui_queue := [];
     last_fault_msg := None;
     poll_interval := 0;
     poll_entry := "500";
     freq_set_entry := "5000";
     connect_btn := "Connect";
     log_text := [];
     fault_tree := [];
     errors_shown := [];
     threads := [];
     world := idle_world |}.

(** A connected monitor whose frequency entry holds a text that is not
    an integer. *)
Definition mistyped_app : App :=
  {| modbus := Some {| slave := 1 |};
     poll_thread := None;
     poll_stop_event := false;
     ui_queue := [];
     last_fault_msg := None;
     poll_interval := 0;
     poll_entry := "500";
     freq_set_entry := "50 Hz";
     connect_btn := "Disconnect";
     log_text := [];
     fault_tree := [];
     errors_shown := [];
     threads := [];
     world := idle_world |}.

Definition registers_response (regs : list Z) : Response :=
  {| isError := false; exception_code := None; text := "";
     registers := regs |}.

Definition exception_response (c : Z) : Response :=
  {| isError := true; exception_code := Some c;
     text := "Exception Response"; registers := [] |}.

Definition no_response : ClientOutcome :=
  Raised (OtherException "ModbusIOException" "No response received").

Definition is_read (addr count : Z) (rq : Request) : bool :=
  match rq with
  | ReadHolding a c => (a =? addr) && (c =? count)
  | WriteSingle _ _ => false
  end.

(** The drive of the scenario: telemetry [540; 380; 42; 1450], frequency
    register [5000]; every call takes 55 ms. *)
Definition scenario_client : Client :=
  fun _ rq =>
    if is_read 0x3002 4 rq
    then (Returned (registers_response [540; 380; 42; 1450]), 55 # 1000)
    else if is_read 0x3001 1 rq
    then (Returned (registers_response [5000]), 55 # 1000)
    else (no_response, 1%Q).

(** A drive that answers the block read and not the frequency read. *)
Definition partial_client : Client :=
  fun _ rq =>
    if is_read 0x3002 4 rq
    then (Returned (registers_response [540; 380; 42; 1450]), 55 # 1000)
    else (no_response, 1%Q).

(** A link on which every call fails after 130 ms. *)
Definition silent_client : Client :=
  fun _ _ => (no_response, 130 # 1000).

(** A drive that answers every call with exception code 4. *)
Definition refusing_client : Client :=
  fun _ _ => (Returned (exception_response 4), 55 # 1000).

End Props.

Import Props.

(** ** vfd_monitor_tk.py: connecting, and the consumer of the queue

    The rest of [VFDMonitorApp]: [connect] and [toggle_connect], and the
    handler of the queue with the series it keeps for the charts.  The
    widgets these methods use beyond those of [App] are kept in records of
    their own. *)

Module VfdMonitorUi.

(** The entry widgets read by [connect]. *)
Record ConnectForm : Type := {
  port_entry : string;
  baud_cb : string;
  parity_cb : string;
  addr_entry : string
}.

(** pymodbus, seen from [connect]: the constructor of the serial client
    with its port, baud rate and parity, and [client.connect()]. *)
Record Driver : Type := {
  new_client : string -> Z -> string -> Result unit;
  client_connect : string -> Result bool
}.

(** [messagebox.showerror(title, msg)] *)
Definition showerror (title msg : string) (a : App) : App :=
  set_errors_shown (errors_shown a ++ [(title, msg)]) a.

(** The lock and the client of a [VFDModbus] object just constructed. *)
Definition new_object (w : World) : World :=
  {| now := now w; wire := wire w; lock := false; port_open := false |}.

(** The client of the object has connected. *)
Definition opened (w : World) : World :=
  {| now := now w; wire := wire w; lock := lock w; port_open := true |}.

(** What the variables of the status frame show, the series of the
    charts, and what the three axes plot. *)
Record View : Type := {
  freq_var : string;
  volt_var : string;
  curr_var : string;
  speed_var : string;
  times : list Q;
  freqs : list spec_float;
  volts : list Z;
  currs : list Z;
  ax_f : list Q * list spec_float;
  ax_v : list Q * list Z;
  ax_c : list Q * list Z
}.

Record Gui : Type := {
  app : App;
  view : View
}.

Definition max_points : nat := 300.

(** [float('nan')] *)
Definition nan : spec_float := S754_nan.

(** The slice [l[-n:]]. *)
Definition slice_last {A} (n : nat) (l : list A) : list A :=
  match n with
  | O => l
  | S _ => drop (length l - n) l
  end.

Definition redraw_charts (v : View) : View :=
  match times v with
  | [] => v
  | t0 :: _ =>
      let xs := map (fun t => (t - t0)%Q) (times v) in
      {| freq_var := freq_var v; volt_var := volt_var v;
         curr_var := curr_var v; speed_var := speed_var v;
         times := times v; freqs := freqs v; volts := volts v;
         currs := currs v;
         ax_f := (xs, freqs v); ax_v := (xs, volts v);
         ax_c := (xs, currs v) |}
  end.

Section WithEnvironment.
Variable driver : Driver.
Variable hms : Q -> string.
Variable int_of_text : string -> Result Z.
(** The format specification [.2f] applied to a float. *)
Variable format_2f : spec_float -> string.

(** *** Connect / Disconnect *)

Definition connect (form : ConnectForm) (a : App) : Result unit * App :=
  let port := port_entry form in
  match int_of_text (baud_cb form) with
  | Raise e => (Raise e, a)
  | Ok baud =>
      let parity := parity_cb form in
      match int_of_text (addr_entry form) with
      | Raise e => (Raise e, a)
      | Ok addr =>
          match new_client driver port baud parity with
          | Raise e =>
              let a := showerror "Connection Error"
                         ("Constructor error:" ++ newline ++ str e) a in
              (Ok tt, set_modbus None a)
          | Ok _ =>
              let a := set_modbus (Some {| slave := addr |})
                         (set_world (new_object (world a)) a) in
              match client_connect driver port with
              | Ok false =>
                  let a := log hms "Failed to open serial port" a in
                  let a := showerror "Serial Error"
                             ("Could not open port " ++ port) a in
                  (Ok tt, set_modbus None a)
              | Raise e =>
                  let a := showerror "Connection Error"
                             ("Connect error:" ++ newline ++ str e) a in
                  (Ok tt, set_modbus None a)
              | Ok true =>
                  let a := set_world (opened (world a)) a in
                  let a := log hms ("Connected to " ++ port ++ " @ "
                                    ++ str_int baud ++ " parity=" ++ parity)
                             a in
                  let a := set_connect_btn "Disconnect" a in
                  start_polling hms int_of_text a
              end
          end
      end
  end.

Definition toggle_connect (form : ConnectForm) (j : JoinOutcome) (a : App)
  : App :=
  match modbus a with
  | None =>
      match connect form a with
      | (Ok _, a) => a
      | (Raise e, a) => showerror "Error" (str e) a
      end
  | Some _ => disconnect hms j a
  end.

(** *** Update data & redraw charts *)

Definition update_data (d : Snapshot) (v : View) : View :=
  let v :=
    {| freq_var := match freq d with
                   | Some f => format_2f f
                   | None => freq_var v
                   end;
       volt_var := str_int (out d);
       curr_var := str_int (curr d);
       speed_var := str_int (speed d);
       times := times v ++ [ts d];
       freqs := freqs v ++ [match freq d with
                            | Some f => f
                            | None => nan
                            end];
       volts := volts v ++ [out d];
       currs := currs v ++ [curr d];
       ax_f := ax_f v; ax_v := ax_v v; ax_c := ax_c v |} in
  let v :=
    if (max_points <? length (times v))%nat
    then {| freq_var := freq_var v; volt_var := volt_var v;
            curr_var := curr_var v; speed_var := speed_var v;
            times := slice_last max_points (times v);
            freqs := slice_last max_points (freqs v);
            volts := slice_last max_points (volts v);
            currs := slice_last max_points (currs v);
            ax_f := ax_f v; ax_v := ax_v v; ax_c := ax_c v |}
    else v in
  redraw_charts v.

(** *** UI queue processing *)

(** One branch of the [if] chain of [process_ui_queue]. *)
Definition handle (m : Msg) (g : Gui) : Gui :=
  match m with
  | MsgData payload =>
      {| app := app g; view := update_data payload (view g) |}
  | MsgFault payload =>
      {| app := show_fault hms payload (app g); view := view g |}
  | MsgLog payload =>
      {| app := log hms payload (app g); view := view g |}
  end.

(** The [while True] of [process_ui_queue], for at most [n] messages:
    [get_nowait] takes the oldest message, [queue.Empty] ends the loop. *)
Fixpoint drain (n : nat) (g : Gui) : Gui :=
  match n with
  | O => g
  | S n' =>
      match ui_queue (app g) with
      | [] => g
      | m :: rest =>
          drain n' (handle m {| app := set_ui_queue rest (app g);
                                view := view g |})
      end
  end.

(** [process_ui_queue]: the handlers put nothing on the queue, so its
    length bounds the turns of the loop. *)
Definition process_ui_queue (g : Gui) : Gui :=
  drain (length (ui_queue (app g))) g.

End WithEnvironment.

End VfdMonitorUi.

Import VfdMonitorUi.

(** ** Definitions for the properties of the whole monitor *)

Module UiProps.

(** What a job puts on the queue for the outcome of its write: the text
    [done] in a log message, or the error after the text [failed]. *)
Definition job_report (done failed : string) (o : ClientOutcome) : Msg :=
  match o with
  | Raised e => MsgFault (failed ++ "Comm error: " ++ str e)
  | Returned wr =>
      if isError wr
      then MsgFault (failed ++ "VFD Exception: "
                     ++ match exception_code wr with
                        | Some c => decode_exception_code c
                        | None => text wr
                        end)
      else MsgLog done
  end.

(** The two reads of a poll cycle. *)
Definition block_request : Request := ReadHolding REG_BUS_VOLT 4.
Definition freq_request : Request := ReadHolding REG_FREQ 1.

(** The requests that a poll cycle puts on the wire. *)
Definition poll_requests (client : Client) (a : App) : list Request :=
  match modbus a with
  | None => []
  | Some _ =>
      match fst (read_regs client REG_BUS_VOLT 4 (world a)) with
      | Ok [_; _; _; _] => [block_request; freq_request]
      | _ => [block_request]
      end
  end.

(** The button and the thread handle agree with the connection. *)
Definition consistent (a : App) : Prop :=
  match modbus a with
  | None => connect_btn a = "Connect" /\ poll_thread a = None
  | Some _ => connect_btn a = "Disconnect"
  end.

(** Every step of [connect] up to the opening of the port goes well. *)
Definition connect_succeeds (driver : Driver)
           (int_of_text : string -> Result Z) (form : ConnectForm)
           (baud addr : Z) : Prop :=
  int_of_text (baud_cb form) = Ok baud /\
  int_of_text (addr_entry form) = Ok addr /\
  new_client driver (port_entry form) baud (parity_cb form) = Ok tt /\
  client_connect driver (port_entry form) = Ok true.

(** The sign that a float carries, if it carries one. *)
Definition signed_as (sx : bool) (f : spec_float) : Prop :=
  match f with
  | S754_zero s | S754_infinity s | S754_finite s _ _ => s = sx
  | S754_nan => True
  end.

(** The titles of the popups of [toggle_connect] and [connect]. *)
Definition popup_titles : list string :=
  ["Error"; "Connection Error"; "Serial Error"].

(** The newest [max_points] elements of a series. *)
Definition window {A} (l : list A) : list A :=
  drop (length l - max_points) l.

(** The four series of the charts have one length. *)
Definition aligned (v : View) : Prop :=
  length (freqs v) = length (times v) /\
  length (volts v) = length (times v) /\
  length (currs v) = length (times v).

(** What the frequency chart gets for a snapshot. *)
Definition plotted_freq (d : Snapshot) : spec_float :=
  match freq d with
  | Some f => f
  | None => nan
  end.

(** [update_data] for each snapshot of a sequence, in order. *)
Definition feed (format_2f : spec_float -> string) (ds : list Snapshot)
           (v : View) : View :=
  fold_left (fun v d => update_data format_2f d v) ds v.

(** The payloads of the data messages and of the fault messages of a
    queue, and the texts that its messages add to the log. *)
Definition data_of (q : list Msg) : list Snapshot :=
  omap (fun m => match m with MsgData d => Some d | _ => None end) q.

Definition faults_of (q : list Msg) : list string :=
  omap (fun m => match m with MsgFault s => Some s | _ => None end) q.

Definition lines_of (q : list Msg) : list string :=
  omap (fun m => match m with
                 | MsgData _ => None
                 | MsgFault s => Some ("? " ++ s)
                 | MsgLog s => Some s
                 end) q.

(** *** Sample states, widgets and drivers *)

(** The view that [__init__] and [build_ui] set up. *)
Definition empty_view : View :=
  {| freq_var := "-"; volt_var := "-"; curr_var := "-"; speed_var := "-";
     times := []; freqs := []; volts := []; currs := [];
     ax_f := ([], []); ax_v := ([], []); ax_c := ([], []) |}.

(** The entries as [build_ui] fills them. *)
Definition default_form : ConnectForm :=
  {| port_entry := "/dev/ttyUSB0"; baud_cb := "9600"; parity_cb := "E";
     addr_entry := "1" |}.

(** An [int] for the texts of the sample entries. *)
Definition entry_int : string -> Result Z :=
  fun s => if String.eqb s "9600" then Ok 9600
           else if String.eqb s "1" then Ok 1
           else if String.eqb s "0" then Ok 0
           else if String.eqb s "10000000000000" then Ok 10000000000000
           else sample_int s.

(** An [int] for an entry that holds the digits of [10^400]. *)
Definition huge_int : string -> Result Z := fun _ => Ok (10 ^ 400).

(** A serial port that opens, and one that does not. *)
Definition working_driver : Driver :=
  {| new_client := fun _ _ _ => Ok tt; client_connect := fun _ => Ok true |}.

Definition absent_port_driver : Driver :=
  {| new_client := fun _ _ _ => Ok tt; client_connect := fun _ => Ok false |}.

Definition sample_format : spec_float -> string := fun _ => "50.00".

(** A monitor whose poll entry holds 0. *)
Definition zero_interval_app : App :=
  {| modbus := None;
     poll_thread := None;
     poll_stop_event := false;
     ui_queue := [];
     last_fault_msg := None;
     poll_interval := 0;
     poll_entry := "0";
     freq_set_entry := "5000";
     connect_btn := "Connect";
     log_text := [];
     fault_tree := [];
     errors_shown := [];
     threads := [];
     world := idle_world |}.


(** A monitor connected to slave 1 and polling every 5 s. *)
Definition slow_polling_app : App :=
  {| modbus := Some {| slave := 1 |};
     poll_thread := Some 0%nat;
     poll_stop_event := false;
     ui_queue := [];
     last_fault_msg := None;
     poll_interval := 5;
     poll_entry := "5000";
     freq_set_entry := "5000";
     connect_btn := "Disconnect";
     log_text := [];
     fault_tree := [];
     errors_shown := [];
     threads := [{| target := PollLoop; is_alive := true |}];
     world := idle_world |}.

(** A drive that answers every read with three registers. *)
Definition short_client : Client :=
  fun _ _ => (Returned (registers_response [540; 380; 42]), 55 # 1000).

(** A drive that answers with an error response without exception code. *)
Definition bare_error : Response :=
  {| isError := true; exception_code := None;
     text := "Modbus Error: [Input/Output] No Response received";
     registers := [] |}.

Definition bare_error_client : Client :=
  fun _ _ => (Returned bare_error, 55 # 1000).

(** An error response without exception code whose text is the message
    of exception code 4. *)
Definition codeless_error : Response :=
  {| isError := true; exception_code := None; text := "Operation failed";
     registers := [] |}.

Definition codeless_client : Client :=
  fun _ _ => (Returned codeless_error, 55 # 1000).

(** Two snapshots, the second without a frequency. *)
Definition snapshot_1 : Snapshot :=
  {| ts := 10; freq := Some (S754_finite false 7036874417766400 (-47));
     bus := 540; out := 380; curr := 42; speed := 1450 |}.

Definition snapshot_2 : Snapshot :=
  {| ts := 10 + (1 # 2); freq := None; bus := 541; out := 381; curr := 43;
     speed := 1451 |}.

(** A window whose queue repeats the fault that was shown last. *)
Definition repeating_gui : Gui :=
  {| app := set_ui_queue [MsgFault "Comm error: a"; MsgData snapshot_1;
                          MsgFault "Comm error: a"]
              (set_last_fault_msg (Some "Comm error: a") polling_app);
     view := empty_view |}.

End UiProps.

Import UiProps.

(** * Properties *)

(** ** Exception codes *)

Example decode_4 : decode_exception_code 4 = "Operation failed".
Proof. reflexivity. Qed.

Example decode_0 : decode_exception_code 0 = "Unknown exception code 0x00".
Proof. vm_compute. reflexivity. Qed.

Example decode_171 : decode_exception_code 171 = "Unknown exception code 0xAB".
Proof. vm_compute. reflexivity. Qed.

Example format_negative : format_02X (-1) = "-1".
Proof. vm_compute. reflexivity. Qed.

Example format_wide : format_02X 4095 = "FFF".
Proof. vm_compute. reflexivity. Qed.

Lemma all_from_spec (n : nat) (p : Z -> bool) (z0 : Z) :
  all_from n z0 p = true ->
  forall z, z0 <= z < z0 + Z.of_nat n -> p z = true.
Proof.
  revert z0. induction n as [|k IH]; intros z0 Hall z Hz.
  - lia.
  - cbn [all_from] in Hall. apply andb_prop in Hall as [Hhead Hrest].
    destruct (Z.eq_dec z z0) as [->|Hne]; [exact Hhead|].
    apply (IH (z0 + 1)); [exact Hrest|lia].
Qed.

Lemma all_below_spec (n : Z) (p : Z -> bool) :
  all_below n p = true ->
  forall z, 0 <= z < n -> p z = true.
Proof.
  intros Hall z Hz. apply (all_from_spec _ _ 0 Hall). lia.
Qed.

Lemma unknown_codes_checked : all_below 256 unknown_code_ok = true.
Proof. vm_compute. reflexivity. Qed.

(** C2. The codes 0x01 to 0x09 decode to the nine fixed messages of the
    table; every other byte value decodes to "Unknown exception code 0x"
    followed by the byte in two upper-case hexadecimal digits. *)
Theorem decode_exception_code_table :
  decode_exception_code 0x01 = "Illegal command" /\
  decode_exception_code 0x02 = "Illegal data address" /\
  decode_exception_code 0x03 = "Illegal value (bad frame)" /\
  decode_exception_code 0x04 = "Operation failed" /\
  decode_exception_code 0x05 = "Password error" /\
  decode_exception_code 0x06 = "Data frame error (CRC/format)" /\
  decode_exception_code 0x07 = "Write not allowed" /\
  decode_exception_code 0x08 = "Parameter cannot be changed during running" /\
  decode_exception_code 0x09 = "Password protection active" /\
  forall c : Z,
    0 <= c <= 255 -> ~ (1 <= c <= 9) ->
    decode_exception_code c
    = "Unknown exception code 0x" ++ two_digit_upper_hex c.
Proof.
  repeat (split; [reflexivity|]).
  intros c Hbyte Hunknown.
  pose proof (all_below_spec 256 unknown_code_ok unknown_codes_checked c) as H.
  unfold unknown_code_ok in H.
  destruct ((1 <=? c) && (c <=? 9)) eqn:Hknown.
  - apply andb_prop in Hknown as [H1 H9]. lia.
  - apply String.eqb_eq. apply H. lia.
Qed.

Lemma decode_exception_code_table_witness :
  decode_exception_code 171 = "Unknown exception code 0xAB".
Proof.
  exact (proj2 (proj2 (proj2 (proj2 (proj2 (proj2 (proj2 (proj2 (proj2
    decode_exception_code_table)))))))) 171 ltac:(lia) ltac:(lia)).
Defined.

(** ** The transaction layer *)

Section Transactions.
Variable client : Client.

Lemma read_regs_run (addr count : Z) (w : World) :
  read_regs client addr count w
  = (match normalized (fst (client (length (wire w)) (ReadHolding addr count)))
     with
     | Ok rr => Ok (registers rr)
     | Raise e => Raise e
     end,
     after_transaction client (ReadHolding addr count) w).
Proof.
  unfold read_regs, with_lock, bind, sleep, transact, try_except, call,
    check, raise, ret, normalized, after_transaction, set_lock; simpl.
  destruct (client (length (wire w)) (ReadHolding addr count)) as [[rr|e] d];
    simpl; [destruct (isError rr)|]; reflexivity.
Qed.

Lemma write_reg_run (addr value : Z) (w : World) :
  write_reg client addr value w
  = (match normalized (fst (client (length (wire w)) (WriteSingle addr value)))
     with
     | Ok _ => Ok true
     | Raise e => Raise e
     end,
     after_transaction client (WriteSingle addr value) w).
Proof.
  unfold write_reg, with_lock, bind, sleep, transact, try_except, call,
    check, raise, ret, normalized, after_transaction, set_lock; simpl.
  destruct (client (length (wire w)) (WriteSingle addr value)) as [[rr|e] d];
    simpl; [destruct (isError rr)|]; reflexivity.
Qed.

Lemma normalized_raises (o : ClientOutcome) (e : PyException) :
  normalized o = Raise e ->
  exists m, e = IOError m /\
            (starts_with "Comm error: " m \/ starts_with "VFD Exception: " m).
Proof.
  destruct o as [rr|e0]; simpl.
  - destruct (isError rr); [|discriminate].
    intros [= <-]. eexists; split; [reflexivity|]. right. eexists; reflexivity.
  - intros [= <-]. eexists; split; [reflexivity|]. left. eexists; reflexivity.
Qed.

End Transactions.

Lemma decode_bytes_distinct :
  all_below 256 (fun c1 => all_below 256 (distinct_or_same c1)) = true.
Proof. vm_compute. reflexivity. Qed.

Lemma decode_exception_code_injective (c1 c2 : Z) :
  0 <= c1 <= 255 -> 0 <= c2 <= 255 ->
  decode_exception_code c1 = decode_exception_code c2 -> c1 = c2.
Proof.
  intros H1 H2 Heq.
  pose proof (all_below_spec _ _ decode_bytes_distinct c1 ltac:(lia)) as H.
  cbv beta in H.
  pose proof (all_below_spec _ _ H c2 ltac:(lia)) as H'.
  unfold distinct_or_same in H'.
  rewrite Heq, String.eqb_refl in H'. cbn [negb orb] in H'. lia.
Qed.

Lemma prefixes_differ (cause message : string) :
  "Comm error: " ++ cause <> "VFD Exception: " ++ message.
Proof. simpl. discriminate. Qed.

(** C3. In [read_regs] and in [write_reg], a call of the serial client
    that raises gives an [IOError] whose text is "Comm error: " followed
    by the text of the cause; an error response that carries an exception
    code gives an [IOError] whose text is "VFD Exception: " followed by
    the decoded message; and an error response without an exception code,
    which is what a failure is when the client returns it instead of
    raising it, gives an [IOError] whose text is "VFD Exception: "
    followed by the text of the response.  Nothing else is raised by
    either operation.  The texts of a raised failure and of an error
    response never coincide, and for exception bytes the decoded message
    determines the code; an error response without a code is not told
    apart from them. *)
Theorem modbus_errors_normalized
  (client : Client) (w : World) (addr count value : Z) :
  let o_read := fst (client (length (wire w)) (ReadHolding addr count)) in
  let o_write := fst (client (length (wire w)) (WriteSingle addr value)) in
  let read := fst (read_regs client addr count w) in
  let write := fst (write_reg client addr value w) in
  (forall e, o_read = Raised e ->
             read = Raise (IOError ("Comm error: " ++ str e))) /\
  (forall e, o_write = Raised e ->
             write = Raise (IOError ("Comm error: " ++ str e))) /\
  (forall rr c, o_read = Returned rr -> isError rr = true ->
                exception_code rr = Some c ->
                read = Raise (IOError ("VFD Exception: "
                                       ++ decode_exception_code c))) /\
  (forall rr c, o_write = Returned rr -> isError rr = true ->
                exception_code rr = Some c ->
                write = Raise (IOError ("VFD Exception: "
                                        ++ decode_exception_code c))) /\
  (forall e, read = Raise e \/ write = Raise e ->
             exists m, e = IOError m /\
                       (starts_with "Comm error: " m \/
                        starts_with "VFD Exception: " m)) /\
  (forall cause message,
      IOError ("Comm error: " ++ cause)
      <> IOError ("VFD Exception: " ++ message)) /\
  (forall c1 c2, 0 <= c1 <= 255 -> 0 <= c2 <= 255 ->
                 IOError ("VFD Exception: " ++ decode_exception_code c1)
                 = IOError ("VFD Exception: " ++ decode_exception_code c2) ->
                 c1 = c2) /\
  (forall rr, o_read = Returned rr -> isError rr = true ->
              exception_code rr = None ->
              read = Raise (IOError ("VFD Exception: " ++ text rr))) /\
  (forall rr, o_write = Returned rr -> isError rr = true ->
              exception_code rr = None ->
              write = Raise (IOError ("VFD Exception: " ++ text rr))) /\
  (forall rr c, o_read = Returned rr -> isError rr = true ->
                exception_code rr = None ->
                text rr = decode_exception_code c ->
                read = Raise (IOError ("VFD Exception: "
                                       ++ decode_exception_code c))) /\
  (forall rr, o_read = Returned rr -> isError rr = false ->
              read = Ok (registers rr)) /\
  (forall rr, o_write = Returned rr -> isError rr = false ->
              write = Ok true).
Proof.
  intros o_read o_write read write.
  subst read write. rewrite read_regs_run, write_reg_run. cbn [fst].
  fold o_read o_write.
  repeat split.
  - intros e ->. reflexivity.
  - intros e ->. reflexivity.
  - intros rr c -> Herr Hc. unfold normalized, ex_msg. rewrite Herr, Hc.
    reflexivity.
  - intros rr c -> Herr Hc. unfold normalized, ex_msg. rewrite Herr, Hc.
    reflexivity.
  - intros e [H|H].
    + destruct (normalized o_read) eqn:Hn; [discriminate|].
      injection H as ->. eapply normalized_raises; eassumption.
    + destruct (normalized o_write) eqn:Hn; [discriminate|].
      injection H as ->. eapply normalized_raises; eassumption.
  - intros cause message [= H]. 
  - intros c1 c2 H1 H2 [= H].
    apply decode_exception_code_injective; [assumption..|].
    simpl in H. exact H.
  - intros rr -> Herr Hc. unfold normalized, ex_msg. rewrite Herr, Hc.
    reflexivity.
  - intros rr -> Herr Hc. unfold normalized, ex_msg. rewrite Herr, Hc.
    reflexivity.
  - intros rr c -> Herr Hc Ht. unfold normalized, ex_msg.
    rewrite Herr, Hc, Ht. reflexivity.
  - intros rr -> Herr. unfold normalized. rewrite Herr. reflexivity.
  - intros rr -> Herr. unfold normalized. rewrite Herr. reflexivity.
Qed.

(** ** One cycle of the polling loop *)

Section Polling.
Variable client : Client.

Lemma time_sleep_cases (d : Q) (a : App) :
  (exists e, sleep_check d = Raise e /\ time_sleep d a = (Raise e, a)) \/
  (sleep_check d = Ok tt /\ time_sleep d a = (Ok tt, elapse d a)).
Proof.
  unfold time_sleep. destruct (sleep_check d) as [[]|e]; eauto.
Qed.

Lemma ui_queue_time_sleep (d : Q) (a : App) :
  ui_queue (snd (time_sleep d a)) = ui_queue a.
Proof.
  destruct (time_sleep_cases d a) as [(e & _ & ->)|(_ & ->)]; reflexivity.
Qed.

Lemma poll_sample_connected (a : App) (m : VFDModbus) :
  modbus a = Some m ->
  poll_sample client a
  = match read_regs client REG_BUS_VOLT 4 (world a) with
    | (Ok regs, w1) =>
        match unpack4 regs with
        | Ok (b, o, c, s) =>
            let '(r2, w2) := read_regs client REG_FREQ 1 w1 in
            put (MsgData {| ts := now w2; freq := freq_of r2; bus := b;
                            out := o; curr := c; speed := s |})
                (set_world w2 a)
        | Raise e => put (MsgFault (str e)) (set_world w1 a)
        end
    | (Raise e, w1) => put (MsgFault (str e)) (set_world w1 a)
    end.
Proof.
  intros Hm. unfold poll_sample, modbus_read_regs, on_world. rewrite Hm.
  destruct (read_regs client REG_BUS_VOLT 4 (world a)) as [[regs|e] w1];
    [|reflexivity].
  destruct (unpack4 regs) as [[[[b o] c] s]|e]; [|reflexivity].
  unfold read_freq, modbus_read_regs, on_world. cbn [modbus set_world world].
  rewrite Hm.
  destruct (read_regs client REG_FREQ 1 w1) as [[[|raw rest]|e] w2];
    cbn [freq_of]; try reflexivity.
  destruct (div_100 raw); reflexivity.
Qed.

Lemma poll_cycle_block_failure (a : App) (m : VFDModbus) (e : PyException) :
  modbus a = Some m ->
  fst (read_regs client REG_BUS_VOLT 4 (world a)) = Raise e ->
  ui_queue (poll_cycle client a) = (ui_queue a ++ [MsgFault (str e)])%list.
Proof.
  intros Hm Hr. unfold poll_cycle, poll_body. rewrite ui_queue_time_sleep.
  rewrite (poll_sample_connected a m Hm).
  destruct (read_regs client REG_BUS_VOLT 4 (world a)) as [r w1].
  cbn [fst] in Hr. subst r. reflexivity.
Qed.

(** C1. In a poll cycle of a connected monitor: when the block read of
    four registers at 0x3002 succeeds and the read of the frequency
    register fails, the cycle puts one data message on the queue, with the
    frequency absent and the four other fields taken from the block; when
    the block read fails, the cycle puts one fault message with the text
    of the error, and no data message. *)
Theorem poll_cycle_partial_read (a : App) (m : VFDModbus) :
  modbus a = Some m ->
  let block := read_regs client REG_BUS_VOLT 4 (world a) in
  (forall b o c s : Z,
      fst block = Ok [b; o; c; s] ->
      (exists e, fst (read_regs client REG_FREQ 1 (snd block)) = Raise e) ->
      exists t,
        ui_queue (poll_cycle client a)
        = (ui_queue a ++ [MsgData {| ts := t; freq := None; bus := b;
                                     out := o; curr := c; speed := s |}])%list)
  /\
  (forall e,
      fst block = Raise e ->
      ui_queue (poll_cycle client a)
      = (ui_queue a ++ [MsgFault (str e)])%list).
Proof.
  intros Hm block. split.
  - intros b o c s Hb [e He]. unfold poll_cycle, poll_body.
    rewrite ui_queue_time_sleep, (poll_sample_connected a m Hm).
    fold block. destruct block as [r w1]. cbn [fst snd] in Hb, He.
    subst r. cbn [unpack4].
    destruct (read_regs client REG_FREQ 1 w1) as [r2 w2]. cbn [fst] in He.
    subst r2. eexists. reflexivity.
  - intros e He. exact (poll_cycle_block_failure a m e Hm He).
Qed.

Lemma sixteen_bit_converts : all_below 65536 converts = true.
Proof. vm_compute. reflexivity. Qed.

Example hundredth_of_5000 :
  div_100 5000 = Ok (S754_finite false 7036874417766400 (-47)).
Proof. reflexivity. Qed.

Example hundredth_of_1_rounded :
  exists f, div_100 1 = Ok f /\ rounded_hundredth 1 f = true.
Proof. eexists. split; reflexivity. Qed.

Example hundredth_of_65535_rounded :
  exists f, div_100 65535 = Ok f /\ rounded_hundredth 65535 f = true.
Proof. eexists. split; reflexivity. Qed.

(** C4. In a poll cycle whose block read returns four registers and whose
    frequency read returns the raw value [r], the data message carries the
    frequency [r / 100.0]: the binary64 quotient of [r], converted to a
    float, by one hundred (the conversion of a 16-bit register never
    fails).  With the block [540; 380; 42; 1450] and the raw frequency
    5000 the message is freq 50.0, bus 540, out 380, curr 42, speed
    1450. *)
Theorem poll_cycle_frequency (a : App) (m : VFDModbus) :
  modbus a = Some m ->
  let block := read_regs client REG_BUS_VOLT 4 (world a) in
  let freq_read := read_regs client REG_FREQ 1 (snd block) in
  (forall b o c s r rest,
      fst block = Ok [b; o; c; s] ->
      fst freq_read = Ok (r :: rest) ->
      exists t,
        ui_queue (poll_cycle client a)
        = (ui_queue a
             ++ [MsgData {| ts := t;
                            freq := match div_100 r with
                                    | Ok f => Some f
                                    | Raise _ => None
                                    end;
                            bus := b; out := o; curr := c;
                            speed := s |}])%list) /\
  (forall r,
      0 <= r <= 65535 ->
      div_100 r
      = Ok (SFdiv prec emax (binary_normalize prec emax r 0 false)
                  float_100)) /\
  (fst block = Ok [540; 380; 42; 1450] ->
   fst freq_read = Ok [5000] ->
   exists t f,
     ui_queue (poll_cycle client a)
     = (ui_queue a ++ [MsgData {| ts := t; freq := Some f; bus := 540;
                                  out := 380; curr := 42;
                                  speed := 1450 |}])%list
     /\ f = S754_finite false 7036874417766400 (-47)
     /\ (SF2Q f == 50)%Q).
Proof.
  intros Hm block freq_read.
  assert (Hgen : forall b o c s r rest,
             fst block = Ok [b; o; c; s] ->
             fst freq_read = Ok (r :: rest) ->
             ui_queue (poll_cycle client a)
             = (ui_queue a
                  ++ [MsgData {| ts := now (snd freq_read);
                                 freq := freq_of (Ok (r :: rest));
                                 bus := b; out := o; curr := c;
                                 speed := s |}])%list).
  { intros b o c s r rest Hb Hf. unfold poll_cycle, poll_body.
    rewrite ui_queue_time_sleep, (poll_sample_connected a m Hm).
    subst freq_read. fold block in Hf |- *.
    destruct block as [r1 w1]. cbn [fst snd] in *. subst r1.
    cbn [unpack4].
    destruct (read_regs client REG_FREQ 1 w1) as [r2 w2].
    cbn [fst snd] in *. subst r2. reflexivity. }
  split; [|split].
  - intros b o c s r rest Hb Hf. rewrite (Hgen b o c s r rest Hb Hf).
    exists (now (snd freq_read)). reflexivity.
  - intros r Hr.
    pose proof (all_below_spec _ _ sixteen_bit_converts r ltac:(lia)) as Hc.
    unfold converts in Hc. unfold div_100.
    destruct (float_of_int r) as [f|e] eqn:Hconv; [|discriminate].
    unfold float_of_int in Hconv.
    destruct (binary_normalize prec emax r 0 false); congruence.
  - intros Hb Hf. rewrite (Hgen _ _ _ _ _ _ Hb Hf).
    eexists _, _. split; [reflexivity|]. split; reflexivity.
Qed.

(** The shape of every cycle: one message is put on the queue, and the
    clock advances by the time of the transactions made. *)
Lemma poll_sample_shape (a : App) :
  exists msg w rqs,
    poll_sample client a = put msg (set_world w a) /\
    wire w = (wire (world a) ++ rqs)%list /\
    (now w == now (world a)
              + time_of_calls client (length (wire (world a))) rqs)%Q.
Proof.
  destruct (modbus a) as [m|] eqn:Hm.
  - rewrite (poll_sample_connected a m Hm), read_regs_run.
    set (rq1 := ReadHolding REG_BUS_VOLT 4).
    set (w1 := after_transaction client rq1 (world a)).
    assert (H1 : wire w1 = (wire (world a) ++ [rq1])%list /\
                 (now w1 == now (world a)
                    + time_of_calls client (length (wire (world a))) [rq1])%Q).
    { split; [reflexivity|]. cbn. ring. }
    destruct (normalized _) as [rr|e].
    + destruct (unpack4 (registers rr)) as [[[[b o] c] s]|e].
      * rewrite read_regs_run.
        set (rq2 := ReadHolding REG_FREQ 1).
        set (w2 := after_transaction client rq2 w1).
        eexists _, w2, [rq1; rq2]. split; [reflexivity|]. split.
        -- cbn. rewrite <- app_assoc. reflexivity.
        -- cbn. rewrite length_app. cbn [length]. rewrite Nat.add_1_r. ring.
      * eexists _, w1, [rq1]. split; [reflexivity|]. exact H1.
    + eexists _, w1, [rq1]. split; [reflexivity|]. exact H1.
  - exists (MsgFault "'NoneType' object has no attribute 'read_regs'"),
      (world a), []. split; [|split].
    + unfold poll_sample, modbus_read_regs. rewrite Hm.
      destruct a; reflexivity.
    + rewrite app_nil_r. reflexivity.
    + cbn. ring.
Qed.

Lemma max0_Qmax (x : Q) : (max0 x == Qmax 0 x)%Q.
Proof.
  unfold max0. destruct (Qlt_le_dec 0 x) as [Hlt|Hle].
  - symmetry. apply Q.max_r. apply Qlt_le_weak. exact Hlt.
  - symmetry. apply Q.max_l. exact Hle.
Qed.

Lemma max0_nonneg (x : Q) : (0 <= max0 x)%Q.
Proof.
  unfold max0. destruct (Qlt_le_dec 0 x) as [Hlt|Hle].
  - apply Qlt_le_weak. exact Hlt.
  - apply Qle_refl.
Qed.

Lemma sleep_check_ok (d : Q) :
  (0 <= d)%Q -> (d < sleep_limit)%Q -> sleep_check d = Ok tt.
Proof.
  intros H0 Hl. unfold sleep_check.
  destruct (Qlt_le_dec d 0) as [Hneg|_].
  - exfalso. exact (Qlt_not_le _ _ Hneg H0).
  - destruct (Qlt_le_dec d sleep_limit) as [_|Hge]; [reflexivity|].
    exfalso. exact (Qlt_not_le _ _ Hl Hge).
Qed.


(** The body of the loop when its sleep is one that [time.sleep] takes,
    and when it is not. *)
Lemma poll_body_returns (a : App) :
  (cadence_sleep (time_time a) (poll_sample client a) < sleep_limit)%Q ->
  poll_body client a
  = (Ok tt, elapse (cadence_sleep (time_time a) (poll_sample client a))
                   (poll_sample client a)).
Proof.
  intros Hl. unfold poll_body, time_sleep.
  rewrite sleep_check_ok; [reflexivity|apply max0_nonneg|exact Hl].
Qed.


(** The sleep changes the clock and nothing else. *)
Lemma poll_cycle_state (a : App) :
  exists w,
    poll_cycle client a = set_world w (poll_sample client a) /\
    wire w = wire (world (poll_sample client a)) /\
    lock w = lock (world (poll_sample client a)) /\
    port_open w = port_open (world (poll_sample client a)).
Proof.
  unfold poll_cycle, poll_body.
  destruct (time_sleep_cases
              (cadence_sleep (time_time a) (poll_sample client a))
              (poll_sample client a)) as [(e & _ & ->)|(_ & ->)].
  - exists (world (poll_sample client a)). cbn [snd].
    split; [destruct (poll_sample client a); reflexivity|auto].
  - eexists. cbn [snd]. unfold elapse, on_world, sleep. cbn [snd].
    split; [reflexivity|]. cbn. auto.
Qed.






Lemma time_of_calls_nonneg (n : nat) (rqs : list Request) :
  (forall k rq, 0 <= snd (client k rq))%Q ->
  (0 <= time_of_calls client n rqs)%Q.
Proof.
  intros Hd. revert n. induction rqs as [|rq rest IH]; intros n.
  - apply Qle_refl.
  - cbn [time_of_calls].
    change 0%Q with (0 + 0 + 0)%Q.
    apply Qplus_le_compat; [apply Qplus_le_compat|apply IH].
    + discriminate.
    + apply Hd.
Qed.

(** With calls that take no negative time, a cycle never sleeps longer
    than its interval. *)
Lemma cadence_sleep_bound (a : App) :
  (forall k rq, 0 <= snd (client k rq))%Q ->
  (cadence_sleep (time_time a) (poll_sample client a)
   <= Qmax 0 (poll_interval a))%Q.
Proof.
  intros Hd.
  destruct (poll_sample_shape a) as (msg & w & rqs & Heq & _ & Hnow).
  unfold cadence_sleep. rewrite max0_Qmax, Heq. unfold time_time.
  cbn [world put set_ui_queue set_world poll_interval]. rewrite Hnow.
  pose proof (time_of_calls_nonneg (length (wire (world a))) rqs Hd) as He.
  set (e := time_of_calls _ _ _) in *.
  apply Q.max_le_compat_l.
  assert (Hx : (poll_interval a - (now (world a) + e - now (world a))
                == poll_interval a + - e)%Q) by ring.
  rewrite Hx.
  rewrite <- (Qplus_0_r (poll_interval a)) at 2.
  apply Qplus_le_compat; [apply Qle_refl|].
  apply (Qopp_le_compat 0 e) in He. exact He.
Qed.






End Polling.

(** ** Presentation of faults *)

Section Presentation.
Variable hms : Q -> string.

Lemma show_fault_step (m : string) (a : App) :
  errors_shown (show_fault hms m a)
  = (errors_shown a
       ++ (if bool_decide (Some m = last_fault_msg a) then []
           else [(fault_title, m)]))%list /\
  fault_tree (show_fault hms m a)
  = (fault_tree a ++ [(hms (time_time a), m)])%list /\
  last_fault_msg (show_fault hms m a) = Some m.
Proof.
  unfold show_fault. cbn [last_fault_msg set_fault_tree log set_log_text].
  destruct (decide (Some m = last_fault_msg a)) as [Heq|Hne].
  - rewrite (bool_decide_eq_false_2 (Some m <> last_fault_msg a)) by tauto.
    rewrite (bool_decide_eq_true_2 _ Heq). cbn. rewrite app_nil_r. auto.
  - rewrite (bool_decide_eq_true_2 (Some m <> last_fault_msg a)) by exact Hne.
    rewrite (bool_decide_eq_false_2 _ Hne). cbn. auto.
Qed.

Lemma show_faults_spec (msgs : list string) (a : App) :
  errors_shown (show_faults hms msgs a)
  = (errors_shown a
       ++ map (pair fault_title) (presented (last_fault_msg a) msgs))%list /\
  map snd (fault_tree (show_faults hms msgs a))
  = (map snd (fault_tree a) ++ msgs)%list.
Proof.
  revert a. induction msgs as [|m rest IH]; intros a.
  - cbn. rewrite !app_nil_r. auto.
  - cbn [show_faults fold_left presented].
    fold (show_faults hms rest (show_fault hms m a)).
    destruct (IH (show_fault hms m a)) as [He Hf].
    destruct (show_fault_step m a) as (He1 & Hf1 & Hl1).
    rewrite He, Hf, He1, Hf1, Hl1. split.
    + destruct (bool_decide (Some m = last_fault_msg a)).
      * rewrite app_nil_r. reflexivity.
      * rewrite <- app_assoc. reflexivity.
    + rewrite map_app, <- app_assoc. reflexivity.
Qed.

(** C7. For every sequence of faults shown one after the other, a popup
    is raised exactly for the faults whose text differs from the text of
    the fault before them (a repeated text raises no second popup), while
    every fault, repeated or not, is appended to the fault table. *)
Theorem fault_popups_deduplicated (msgs : list string) (a : App) :
  errors_shown (show_faults hms msgs a)
  = (errors_shown a
       ++ map (pair fault_title) (presented (last_fault_msg a) msgs))%list /\
  map snd (fault_tree (show_faults hms msgs a))
  = (map snd (fault_tree a) ++ msgs)%list /\
  (forall m, last_fault_msg (show_fault hms m a) = Some m) /\
  (forall m,
      last_fault_msg a = Some m ->
      errors_shown (show_fault hms m a) = errors_shown a /\
      map snd (fault_tree (show_fault hms m a))
      = (map snd (fault_tree a) ++ [m])%list) /\
  (forall m,
      last_fault_msg a <> Some m ->
      errors_shown (show_fault hms m a)
      = (errors_shown a ++ [(fault_title, m)])%list).
Proof.
  destruct (show_faults_spec msgs a) as [He Hf].
  split; [exact He|]. split; [exact Hf|]. split; [|split].
  - intros m. apply show_fault_step.
  - intros m Hl. destruct (show_fault_step m a) as (He1 & Hf1 & _).
    rewrite He1, Hf1, Hl, bool_decide_eq_true_2 by reflexivity.
    rewrite app_nil_r, map_app. auto.
  - intros m Hl. destruct (show_fault_step m a) as (He1 & _).
    rewrite He1, bool_decide_eq_false_2 by congruence. reflexivity.
Qed.

End Presentation.

(** ** Commands, start and stop *)

Section Commands.
Variable hms : Q -> string.
Variable int_of_text : string -> Result Z.

(** What the guard of [start_polling] gives: while the thread of the
    handle is alive, [start_polling] changes nothing and starts no thread;
    [disconnect] when there is no handle leaves the scheduler as it is;
    and when [start_polling] does start a thread, the handle held none
    that was alive.  A thread that is alive without being the one of the
    handle is not seen by the guard. *)
Lemma start_polling_guard (a : App) :
  (forall k,
      poll_thread a = Some k -> thread_is_alive k a = true ->
      start_polling hms int_of_text a = (Ok tt, a)) /\
  (forall j,
      poll_thread a = None ->
      scheduler (disconnect hms j a) = scheduler a) /\
  (forall j,
      poll_thread a = None -> modbus a = None ->
      disconnect hms j a
      = log hms "Disconnected" (set_connect_btn "Connect" a)) /\
  (forall a',
      start_polling hms int_of_text a = (Ok tt, a') ->
      threads a' <> threads a ->
      (poll_thread a = None \/
       exists k, poll_thread a = Some k /\ thread_is_alive k a = false) /\
      threads a'
      = (threads a ++ [{| target := PollLoop; is_alive := true |}])%list /\
      poll_thread a' = Some (length (threads a)) /\
      poll_stop_event a' = false).
Proof.
  split; [|split; [|split]].
  - intros k Hk Halive. unfold start_polling. rewrite Hk, Halive. reflexivity.
  - intros j Hp. unfold disconnect, scheduler. rewrite Hp.
    cbn [modbus set_poll_thread]. destruct (modbus a); reflexivity.
  - intros j Hp Hm. unfold disconnect. rewrite Hp.
    cbn [modbus set_poll_thread]. rewrite Hm.
    destruct a; cbn in Hp, Hm; subst; reflexivity.
  - intros a' Hstart Hne. unfold start_polling in Hstart.
    destruct (poll_thread a) as [k|] eqn:Hk.
    + destruct (thread_is_alive k a) eqn:Halive.
      * injection Hstart as <-. congruence.
      * destruct (int_of_text (poll_entry a)) as [n|]; [|discriminate].
        destruct (div_1000 n); [|discriminate].
        injection Hstart as <-. split; [right; eauto|]. cbn. auto.
    + destruct (int_of_text (poll_entry a)) as [n|]; [|discriminate].
      destruct (div_1000 n); [|discriminate].
      injection Hstart as <-. split; [left; reflexivity|]. cbn. auto.
Qed.

Lemma log_only_logs (msg : string) (a : App) :
  threads (log hms msg a) = threads a /\
  ui_queue (log hms msg a) = ui_queue a /\
  world (log hms msg a) = world a /\
  modbus (log hms msg a) = modbus a /\
  errors_shown (log hms msg a) = errors_shown a /\
  log_text (log hms msg a) = (log_text a ++ [log_line hms a msg])%list.
Proof. repeat split. Qed.

(** C10. Without a connection, [send_control] and [set_freq] only append
    the log line "Not connected": no thread is started, nothing is put on
    the queue and nothing is sent.  With a connection, [set_freq] on a text
    that [int] rejects only appends the log line "Invalid frequency
    input". *)
Theorem commands_need_connection (a : App) (code : Z) :
  (modbus a = None ->
   send_control hms code a = log hms "Not connected" a /\
   set_freq hms int_of_text a = log hms "Not connected" a) /\
  (forall m e,
      modbus a = Some m ->
      int_of_text (freq_set_entry a) = Raise e ->
      set_freq hms int_of_text a = log hms "Invalid frequency input" a) /\
  (forall msg,
      threads (log hms msg a) = threads a /\
      ui_queue (log hms msg a) = ui_queue a /\
      world (log hms msg a) = world a /\
      modbus (log hms msg a) = modbus a /\
      errors_shown (log hms msg a) = errors_shown a /\
      log_text (log hms msg a) = (log_text a ++ [log_line hms a msg])%list).
Proof.
  split; [|split].
  - intros Hm. unfold send_control, set_freq. rewrite Hm. auto.
  - intros m e Hm He. unfold set_freq. rewrite Hm, He. reflexivity.
  - intros msg. apply log_only_logs.
Qed.

End Commands.

(** C8. Start while a polling loop is running is not always a no-op.  A
    monitor polls every 5 s; [disconnect] sets the stop event, its join
    gives up after 1 s while the poll thread sleeps, and the handle is
    dropped although the thread is alive.  The connect that follows finds
    no handle: [start_polling] clears the stop event and starts a second
    thread.  When the first thread comes to its loop test the condition
    holds again, so it stays alive and polls the drive, and so does the
    second: two polling loops run side by side. *)
Theorem second_loop_after_timed_out_stop :
  let a1 := toggle_connect working_driver sample_hms entry_int default_form
              TimedOut slow_polling_app in
  let a2 := toggle_connect working_driver sample_hms entry_int default_form
              TimedOut a1 in
  let a3 := run_poll_thread scenario_client 0 1 a2 in
  let a4 := run_poll_thread scenario_client 1 1 a3 in
  (threads slow_polling_app = [{| target := PollLoop; is_alive := true |}] /\
   poll_thread slow_polling_app = Some 0%nat) /\
  (poll_thread a1 = None /\ poll_stop_event a1 = true /\
   modbus a1 = None /\
   threads a1 = [{| target := PollLoop; is_alive := true |}]) /\
  (poll_thread a2 = Some 1%nat /\ poll_stop_event a2 = false /\
   modbus a2 = Some {| slave := 1 |} /\
   threads a2 = [{| target := PollLoop; is_alive := true |};
                 {| target := PollLoop; is_alive := true |}]) /\
  (thread_is_alive 0 a3 = true /\
   wire (world a3) = [ReadHolding 0x3002 4; ReadHolding 0x3001 1]) /\
  (thread_is_alive 0 a4 = true /\ thread_is_alive 1 a4 = true /\
   wire (world a4) = [ReadHolding 0x3002 4; ReadHolding 0x3001 1;
                      ReadHolding 0x3002 4; ReadHolding 0x3001 1]).
Proof. vm_compute. repeat split. Qed.

(** ** Mutual exclusion on the bus *)

Lemma inv_initial : Inv initial.
Proof.
  unfold initial. repeat split; cbn [tasks lock_held].
  - intros i j ti tj H. rewrite lookup_empty in H. discriminate.
  - intros _ i t H. rewrite lookup_empty in H. discriminate.
  - discriminate.
Qed.

(** A step that changes neither the lock nor whether the thread is inside. *)
Lemma inv_same (s : State) (i : nat) (t' : Task) :
  Inv s ->
  match tasks s !! i with
  | Some t => in_section t = in_section t'
  | None => in_section t' = false
  end ->
  Inv {| lock_held := lock_held s; tasks := <[i := t']> (tasks s) |}.
Proof.
  intros (Huniq & Hfree & Hheld) Hsame. repeat split; cbn [lock_held tasks].
  - intros j k tj tk Hj Hk Hsj Hsk.
    destruct (decide (i = j)) as [<-|Hij], (decide (i = k)) as [<-|Hik];
      [reflexivity|..].
    + rewrite lookup_insert_eq in Hj. rewrite lookup_insert_ne in Hk by done.
      injection Hj as <-. destruct (tasks s !! i) as [t|] eqn:Ht; [|congruence].
      apply (Huniq i k t tk); congruence.
    + rewrite lookup_insert_eq in Hk. rewrite lookup_insert_ne in Hj by done.
      injection Hk as <-. destruct (tasks s !! i) as [t|] eqn:Ht; [|congruence].
      apply (Huniq j i tj t); congruence.
    + rewrite lookup_insert_ne in Hj by done.
      rewrite lookup_insert_ne in Hk by done. eauto.
  - intros Hl j tj Hj. destruct (decide (i = j)) as [<-|Hij].
    + rewrite lookup_insert_eq in Hj. injection Hj as <-.
      destruct (tasks s !! i) as [t|] eqn:Ht; [|assumption].
      rewrite <- Hsame. eauto.
    + rewrite lookup_insert_ne in Hj by done. eauto.
  - intros Hl. destruct (Hheld Hl) as (j & tj & Hj & Hsj).
    destruct (decide (i = j)) as [<-|Hij].
    + exists i, t'. rewrite lookup_insert_eq. rewrite Hj in Hsame.
      split; [reflexivity|congruence].
    + exists j, tj. rewrite lookup_insert_ne by done. auto.
Qed.

Lemma inv_enter (s : State) (i : nat) (t' : Task) :
  Inv s -> lock_held s = false -> in_section t' = true ->
  Inv {| lock_held := true; tasks := <[i := t']> (tasks s) |}.
Proof.
  intros (Huniq & Hfree & Hheld) Hl Hin. specialize (Hfree Hl).
  repeat split; cbn [lock_held tasks].
  - intros j k tj tk Hj Hk Hsj Hsk.
    destruct (decide (i = j)) as [<-|Hij], (decide (i = k)) as [<-|Hik];
      [reflexivity|..].
    + rewrite lookup_insert_ne in Hk by done. apply Hfree in Hk. congruence.
    + rewrite lookup_insert_ne in Hj by done. apply Hfree in Hj. congruence.
    + rewrite lookup_insert_ne in Hj by done. apply Hfree in Hj. congruence.
  - discriminate.
  - intros _. exists i, t'. rewrite lookup_insert_eq. auto.
Qed.

Lemma inv_leave (s : State) (i : nat) (t t' : Task) :
  Inv s -> tasks s !! i = Some t -> in_section t = true ->
  in_section t' = false ->
  Inv {| lock_held := false; tasks := <[i := t']> (tasks s) |}.
Proof.
  intros (Huniq & Hfree & Hheld) Ht Hin Hout.
  assert (Hothers : forall j tj, i <> j -> tasks s !! j = Some tj ->
                                 in_section tj = false).
  { intros j tj Hij Hj. destruct (in_section tj) eqn:Hsj; [|reflexivity].
    exfalso. apply Hij. eapply Huniq; eassumption. }
  repeat split; cbn [lock_held tasks].
  - intros j k tj tk Hj Hk Hsj Hsk.
    destruct (decide (i = j)) as [<-|Hij].
    + rewrite lookup_insert_eq in Hj. congruence.
    + rewrite lookup_insert_ne in Hj by done.
      rewrite (Hothers j tj Hij Hj) in Hsj. discriminate.
  - intros _ j tj Hj. destruct (decide (i = j)) as [<-|Hij].
    + rewrite lookup_insert_eq in Hj. congruence.
    + rewrite lookup_insert_ne in Hj by done. eauto.
  - discriminate.
Qed.

Lemma inv_step (s s' : State) : Inv s -> step s s' -> Inv s'.
Proof.
  intros Hinv Hstep. destruct Hstep as
    [s i op Hi|s i op Hi Hl|s i op Hi|s i op o Hi|s i op o Hi|s i Hi].
  - apply inv_same; [assumption|]. rewrite Hi. reflexivity.
  - apply inv_enter; [assumption..|]. destruct op; reflexivity.
  - apply inv_same; [assumption|]. rewrite Hi. reflexivity.
  - apply inv_same; [assumption|]. rewrite Hi. reflexivity.
  - eapply inv_leave; [eassumption..|reflexivity|reflexivity].
  - eapply inv_leave; [eassumption..|reflexivity|reflexivity].
Qed.

Lemma inv_reachable (s : State) : reachable s -> Inv s.
Proof.
  induction 1 as [|s s' _ IH Hstep]; [apply inv_initial|].
  eapply inv_step; eassumption.
Qed.

(** A thread that runs its call alone ends with what [read_regs] and
    [write_reg] return. *)
Lemma finish_read_regs (client : Client) (addr count : Z) (w : World) :
  finish (OpRead addr count)
         (fst (client (length (wire w)) (ReadHolding addr count)))
  = match fst (read_regs client addr count w) with
    | Ok regs => Ok (VRegisters regs)
    | Raise e => Raise e
    end.
Proof.
  rewrite read_regs_run. cbn [fst]. unfold finish, normalized.
  destruct (fst (client (length (wire w)) (ReadHolding addr count)))
    as [rr|e]; [destruct (isError rr)|]; reflexivity.
Qed.

Lemma finish_write_reg (client : Client) (addr value : Z) (w : World) :
  finish (OpWrite addr value)
         (fst (client (length (wire w)) (WriteSingle addr value)))
  = match fst (write_reg client addr value w) with
    | Ok _ => Ok VTrue
    | Raise e => Raise e
    end.
Proof.
  rewrite write_reg_run. cbn [fst]. unfold finish, normalized.
  destruct (fst (client (length (wire w)) (WriteSingle addr value)))
    as [rr|e]; [destruct (isError rr)|]; reflexivity.
Qed.

Lemma in_flight_in_section (t : Task) :
  in_flight t = true -> in_section t = true.
Proof. unfold in_flight, in_section. destruct (phase t); congruence. Qed.

(** C9. However the calls of any number of threads interleave, at most
    one register transaction is in flight; it is, from its settling delay
    to the check of the response, inside the section guarded by the lock;
    and the lock is given back when the thread leaves, with a result or
    with an error alike: it is held only while some thread is inside. *)
Theorem one_transaction_in_flight (s : State) :
  reachable s ->
  (forall i j ti tj,
      tasks s !! i = Some ti -> tasks s !! j = Some tj ->
      in_flight ti = true -> in_flight tj = true -> i = j) /\
  (forall i t,
      tasks s !! i = Some t -> in_flight t = true ->
      in_section t = true /\ lock_held s = true) /\
  ((forall i t, tasks s !! i = Some t -> in_section t = false) ->
   lock_held s = false) /\
  (forall s' i op o r,
      step s s' ->
      tasks s !! i = Some (mkTask op (Answered o)) ->
      tasks s' !! i = Some (mkTask op (Left r)) ->
      r = finish op o /\ lock_held s' = false).
Proof.
  intros Hreach. destruct (inv_reachable s Hreach) as (Huniq & Hfree & Hheld).
  split; [|split; [|split]].
  - intros i j ti tj Hi Hj Hfi Hfj.
    apply (Huniq i j ti tj); auto using in_flight_in_section.
  - intros i t Hi Hf. apply in_flight_in_section in Hf.
    split; [exact Hf|]. destruct (lock_held s) eqn:Hl; [reflexivity|].
    rewrite (Hfree eq_refl i t Hi) in Hf. discriminate.
  - intros Hnone. destruct (lock_held s) eqn:Hl; [|reflexivity].
    destruct (Hheld eq_refl) as (i & t & Hi & Hin).
    rewrite (Hnone i t Hi) in Hin. discriminate.
  - intros s' i op0 o r Hstep Hi Hi'.
    destruct Hstep as
      [s k op1 Hk|s k op1 Hk Hl|s k op1 Hk|s k op1 o1 Hk|s k op1 o1 Hk|s k Hk];
      cbn [tasks lock_held] in *;
      (destruct (decide (k = i)) as [->|Hne];
       [rewrite lookup_insert_eq in Hi'; rewrite Hk in Hi;
        try discriminate; try congruence
       |rewrite lookup_insert_ne in Hi' by done; congruence]).
    injection Hi as -> ->. injection Hi' as <-. auto.
Qed.

(** ** The properties on the sample states *)

Lemma poll_cycle_partial_read_witness :
  exists t,
    ui_queue (poll_cycle partial_client polling_app)
    = [MsgData {| ts := t; freq := None; bus := 540; out := 380;
                  curr := 42; speed := 1450 |}].
Proof.
  apply (proj1 (poll_cycle_partial_read partial_client polling_app
                  {| slave := 1 |} eq_refl) 540 380 42 1450).
  - reflexivity.
  - eexists. reflexivity.
Defined.

Lemma modbus_errors_normalized_witness :
  fst (read_regs silent_client 0x3002 4 idle_world)
  = Raise (IOError "Comm error: No response received") /\
  fst (write_reg refusing_client 0x2000 5 idle_world)
  = Raise (IOError "VFD Exception: Operation failed") /\
  fst (read_regs bare_error_client 0x3002 4 idle_world)
  = Raise (IOError
             "VFD Exception: Modbus Error: [Input/Output] No Response received").
Proof.
  split; [|split].
  - apply (proj1 (modbus_errors_normalized silent_client idle_world
                    0x3002 4 0)
             (OtherException "ModbusIOException" "No response received")).
    reflexivity.
  - apply (proj1 (proj2 (proj2 (proj2
             (modbus_errors_normalized refusing_client idle_world
                0x2000 1 5))))
             (exception_response 4) 4); reflexivity.
  - apply (proj1 (proj2 (proj2 (proj2 (proj2 (proj2 (proj2 (proj2
             (modbus_errors_normalized bare_error_client idle_world
                0x3002 4 0))))))))
             bare_error); reflexivity.
Defined.

(** C3, the claim as it was made: a failure that the client returns as an
    error object is not reported as a "Comm error", and an error response
    without a code whose text is that of a decoded exception is raised
    as the very same error as the exception. *)
Lemma returned_failure_not_told_apart :
  fst (read_regs bare_error_client 0x3002 4 idle_world)
  = Raise (IOError
             "VFD Exception: Modbus Error: [Input/Output] No Response received")
  /\
  ~ starts_with
      "Comm error: "
      "VFD Exception: Modbus Error: [Input/Output] No Response received" /\
  exception_code codeless_error = None /\
  exception_code (exception_response 4) = Some 4 /\
  fst (read_regs codeless_client 0x3002 4 idle_world)
  = fst (read_regs refusing_client 0x3002 4 idle_world) /\
  fst (write_reg codeless_client 0x2000 5 idle_world)
  = fst (write_reg refusing_client 0x2000 5 idle_world).
Proof.
  split; [reflexivity|]. split; [intros [t Ht]; discriminate Ht|].
  repeat split.
Qed.

Lemma poll_cycle_frequency_witness :
  exists t f,
    ui_queue (poll_cycle scenario_client polling_app)
    = [MsgData {| ts := t; freq := Some f; bus := 540; out := 380;
                  curr := 42; speed := 1450 |}]
    /\ f = S754_finite false 7036874417766400 (-47)
    /\ (SF2Q f == 50)%Q.
Proof.
  apply (proj2 (proj2 (poll_cycle_frequency scenario_client polling_app
                         {| slave := 1 |} eq_refl))); reflexivity.
Defined.




Lemma fault_popups_deduplicated_witness :
  errors_shown
    (show_faults sample_hms ["Comm error: a"; "Comm error: a"; "Comm error: b"]
                 fresh_app)
  = [(fault_title, "Comm error: a"); (fault_title, "Comm error: b")] /\
  map snd (fault_tree
             (show_faults sample_hms
                ["Comm error: a"; "Comm error: a"; "Comm error: b"] fresh_app))
  = ["Comm error: a"; "Comm error: a"; "Comm error: b"].
Proof.
  pose proof (fault_popups_deduplicated sample_hms
                ["Comm error: a"; "Comm error: a"; "Comm error: b"]
                fresh_app) as (He & Hf & _).
  split; [exact He|exact Hf].
Defined.

Lemma commands_need_connection_witness :
  send_control sample_hms 5 fresh_app = log sample_hms "Not connected" fresh_app
  /\
  set_freq sample_hms sample_int
           mistyped_app
  = log sample_hms "Invalid frequency input"
        mistyped_app.
Proof.
  split.
  - apply (proj1 (commands_need_connection sample_hms sample_int
                    fresh_app 5)). reflexivity.
  - apply (proj1 (proj2 (commands_need_connection sample_hms sample_int
                    mistyped_app 5)) {| slave := 1 |}
             (ValueError "invalid literal for int() with base 10"));
      reflexivity.
Defined.

Lemma busy_state_reachable : reachable busy_state.
Proof.
  apply (reachable_step busy_3);
    [|exact (step_settled busy_3 0 busy_read eq_refl)].
  apply (reachable_step busy_2);
    [|exact (step_acquire busy_2 0 busy_read eq_refl eq_refl)].
  apply (reachable_step busy_1);
    [|exact (step_call busy_1 1 busy_write eq_refl)].
  apply (reachable_step initial);
    [|exact (step_call initial 0 busy_read eq_refl)].
  exact reachable_initial.
Defined.

Lemma one_transaction_in_flight_witness :
  reachable busy_state /\
  forall i j ti tj,
    tasks busy_state !! i = Some ti -> tasks busy_state !! j = Some tj ->
    in_flight ti = true -> in_flight tj = true -> i = j.
Proof.
  split; [exact busy_state_reachable|].
  exact (proj1 (one_transaction_in_flight busy_state busy_state_reachable)).
Defined.

(** * The rest of the code *)

(** ** vfd_modbus.py: decoding and transactions *)

Lemma exception_dict_lookup (code : Z) :
  is_Some (EXCEPTION_DICT !! code) <-> 1 <= code <= 9.
Proof.
  unfold EXCEPTION_DICT. split.
  - intros [msg H].
    destruct (decide (1 <= code <= 9)) as [Hin|Hout]; [exact Hin|].
    exfalso. revert H.
    repeat (rewrite list_to_map_cons, lookup_insert_ne by lia).
    rewrite list_to_map_nil, lookup_empty. discriminate.
  - intros H.
    assert (Hc : code = 1 \/ code = 2 \/ code = 3 \/ code = 4 \/ code = 5 \/
                 code = 6 \/ code = 7 \/ code = 8 \/ code = 9) by lia.
    repeat destruct Hc as [->|Hc]; try subst code; eexists; reflexivity.
Qed.

(** X1. [decode_exception_code] is defined on every integer, not only on
    bytes: the integers 1 to 9 are exactly the keys of the table and decode
    to their entry; every other integer, negative or above 255 as well,
    decodes to "Unknown exception code 0x" followed by the integer in the
    format [02X]. *)
Theorem decode_unknown_for_every_integer (code : Z) :
  (1 <= code <= 9 ->
   EXCEPTION_DICT !! code = Some (decode_exception_code code)) /\
  (~ (1 <= code <= 9) ->
   EXCEPTION_DICT !! code = None /\
   decode_exception_code code
   = "Unknown exception code 0x" ++ format_02X code).
Proof.
  unfold decode_exception_code. split.
  - intros H. apply exception_dict_lookup in H as [msg ->]. reflexivity.
  - intros H. destruct (EXCEPTION_DICT !! code) as [msg|] eqn:Hl;
      [|split; reflexivity].
    exfalso. apply H. apply exception_dict_lookup. eauto.
Qed.

Section TransactionEffects.
Variable client : Client.

(** X2. A call of [read_regs] or of [write_reg], whatever its outcome,
    puts exactly one request on the wire, after the settling delay of
    20 ms; it leaves the lock free, takes the delay and the time of the
    client call, and neither opens nor closes the port. *)
Theorem transaction_effects (addr count value : Z) (w : World) :
  let w_read := snd (read_regs client addr count w) in
  let w_write := snd (write_reg client addr value w) in
  (lock w_read = false /\
   wire w_read = (wire w ++ [ReadHolding addr count])%list /\
   port_open w_read = port_open w /\
   now w_read
   = (now w + (2 # 100)
      + snd (client (length (wire w)) (ReadHolding addr count)))%Q) /\
  (lock w_write = false /\
   wire w_write = (wire w ++ [WriteSingle addr value])%list /\
   port_open w_write = port_open w /\
   now w_write
   = (now w + (2 # 100)
      + snd (client (length (wire w)) (WriteSingle addr value)))%Q).
Proof.
  cbn zeta. rewrite read_regs_run, write_reg_run. cbn [snd].
  unfold after_transaction. cbn. auto 10.
Qed.

(** X3. When the client returns a response, [read_regs] gives its
    registers and [write_reg] gives [True] unless the response is an
    error; an error response without exception code is raised with the
    text of the response itself in place of a decoded message. *)
Theorem response_without_exception_code (addr count value : Z) (w : World)
        (rr : Response) :
  (fst (client (length (wire w)) (ReadHolding addr count)) = Returned rr ->
   (isError rr = false ->
    fst (read_regs client addr count w) = Ok (registers rr)) /\
   (isError rr = true -> exception_code rr = None ->
    fst (read_regs client addr count w)
    = Raise (IOError ("VFD Exception: " ++ text rr)))) /\
  (fst (client (length (wire w)) (WriteSingle addr value)) = Returned rr ->
   (isError rr = false ->
    fst (write_reg client addr value w) = Ok true) /\
   (isError rr = true -> exception_code rr = None ->
    fst (write_reg client addr value w)
    = Raise (IOError ("VFD Exception: " ++ text rr)))).
Proof.
  rewrite read_regs_run, write_reg_run. cbn [fst].
  split; intros ->; unfold normalized, ex_msg;
    (split; [intros ->; reflexivity|intros -> ->; reflexivity]).
Qed.

End TransactionEffects.

(** ** vfd_monitor_tk.py: the write jobs and their handlers *)

Section Jobs.
Variable client : Client.
Variable hms : Q -> string.
Variable int_of_text : string -> Result Z.

Lemma modbus_write_reg_connected (addr value : Z) (a : App) (m : VFDModbus) :
  modbus a = Some m ->
  modbus_write_reg client addr value a
  = (match normalized (fst (client (length (wire (world a)))
                              (WriteSingle addr value))) with
     | Ok _ => Ok true
     | Raise e => Raise e
     end,
     set_world (after_transaction client (WriteSingle addr value) (world a))
               a).
Proof.
  intros Hm. unfold modbus_write_reg, on_world. rewrite Hm, write_reg_run.
  reflexivity.
Qed.

Lemma job_report_normalized (done failed : string) (o : ClientOutcome) :
  match normalized o with
  | Ok _ => MsgLog done
  | Raise e => MsgFault (failed ++ str e)
  end = job_report done failed o.
Proof.
  destruct o as [wr|e]; cbn; [destruct (isError wr)|]; reflexivity.
Qed.

(** X4. The job of [send_control] writes the code as it is to register
    0x2000, and the job of [set_freq] writes the value as it is, without
    a check of its range, to register 0x2001.  Each job makes one
    transaction and puts exactly one message on the queue: a log message
    when the drive accepted the write, a fault that starts with
    "Control failed: " or "Set freq failed: " otherwise.  A job that runs
    after [disconnect] has removed the connection reports the attribute
    error and sends nothing. *)
Theorem write_jobs_report_once (code v : Z) (a : App) :
  (forall m,
      modbus a = Some m ->
      control_job client code a
      = put (job_report ("Control 0x" ++ format_04X code ++ " sent")
                        "Control failed: "
                        (fst (client (length (wire (world a)))
                                (WriteSingle 0x2000 code))))
            (set_world (after_transaction client (WriteSingle 0x2000 code)
                                          (world a)) a) /\
      set_freq_job client v a
      = put (job_report ("Freq set to " ++ str_int v) "Set freq failed: "
                        (fst (client (length (wire (world a)))
                                (WriteSingle 0x2001 v))))
            (set_world (after_transaction client (WriteSingle 0x2001 v)
                                          (world a)) a)) /\
  (modbus a = None ->
   control_job client code a
   = put (MsgFault
            "Control failed: 'NoneType' object has no attribute 'write_reg'")
         a /\
   set_freq_job client v a
   = put (MsgFault
            "Set freq failed: 'NoneType' object has no attribute 'write_reg'")
         a).
Proof.
  split.
  - intros m Hm. unfold control_job, set_freq_job.
    rewrite !(modbus_write_reg_connected _ _ a m Hm).
    rewrite <- !job_report_normalized.
    split; destruct (normalized _); reflexivity.
  - intros Hm. unfold control_job, set_freq_job, modbus_write_reg.
    rewrite Hm. split; reflexivity.
Qed.

(** X5. While connected, the handlers [send_control] and [set_freq] do
    not touch the serial line, the queue or the log: they start one
    thread and return.  The write reaches the wire only when the job of
    that thread runs, and the job then puts one message on the queue. *)
Theorem command_is_fire_and_forget (code : Z) (a : App) (m : VFDModbus) :
  modbus a = Some m ->
  let a1 := send_control hms code a in
  let a2 := control_job client code a1 in
  (wire (world a1) = wire (world a) /\ ui_queue a1 = ui_queue a /\
   log_text a1 = log_text a /\
   threads a1
   = (threads a ++ [{| target := ControlJob code; is_alive := true |}])%list)
  /\
  (wire (world a2) = (wire (world a) ++ [WriteSingle 0x2000 code])%list /\
   exists msg, ui_queue a2 = (ui_queue a ++ [msg])%list) /\
  (forall v,
      int_of_text (freq_set_entry a) = Ok v ->
      let b1 := set_freq hms int_of_text a in
      wire (world b1) = wire (world a) /\ ui_queue b1 = ui_queue a /\
      threads b1
      = (threads a ++ [{| target := SetFreqJob v; is_alive := true |}])%list
      /\
      wire (world (set_freq_job client v b1))
      = (wire (world a) ++ [WriteSingle 0x2001 v])%list).
Proof.
  intros Hm a1 a2.
  assert (Ha1 : a1 = snd (start_thread (ControlJob code) a)).
  { subst a1. unfold send_control. rewrite Hm. reflexivity. }
  split; [|split].
  - rewrite Ha1. cbn. auto.
  - subst a2. unfold control_job.
    rewrite (modbus_write_reg_connected _ _ a1 m)
      by (rewrite Ha1; exact Hm).
    rewrite Ha1.
    destruct (normalized _); cbn; (split; [reflexivity|]);
      eexists; reflexivity.
  - intros v Hv b1.
    assert (Hb1 : b1 = snd (start_thread (SetFreqJob v) a)).
    { subst b1. unfold set_freq. rewrite Hm, Hv. reflexivity. }
    rewrite Hb1. cbn [snd start_thread]. repeat split.
    unfold set_freq_job.
    rewrite (modbus_write_reg_connected _ _ _ m) by exact Hm.
    destruct (normalized _); reflexivity.
Qed.

End Jobs.

(** ** vfd_monitor_tk.py: what a poll cycle does to the line and to time *)

Section Cycle.
Variable client : Client.

Lemma unpack4_ok (regs : list Z) (b o c s : Z) :
  unpack4 regs = Ok (b, o, c, s) <-> regs = [b; o; c; s].
Proof.
  split; [|intros ->; reflexivity].
  destruct regs as [|x1 [|x2 [|x3 [|x4 [|x5 rest]]]]]; cbn;
    try discriminate. intros [= -> -> -> ->]. reflexivity.
Qed.

Lemma poll_sample_requests (a : App) :
  exists msg w,
    poll_sample client a = put msg (set_world w a) /\
    wire w = (wire (world a) ++ poll_requests client a)%list /\
    (now w == now (world a)
              + time_of_calls client (length (wire (world a)))
                              (poll_requests client a))%Q.
Proof.
  unfold poll_requests. destruct (modbus a) as [m|] eqn:Hm.
  - rewrite (poll_sample_connected client a m Hm), read_regs_run. cbn [fst].
    set (rq1 := ReadHolding REG_BUS_VOLT 4).
    set (w1 := after_transaction client rq1 (world a)).
    assert (H1 : wire w1 = (wire (world a) ++ [block_request])%list /\
                 (now w1 == now (world a)
                    + time_of_calls client (length (wire (world a)))
                                    [block_request])%Q).
    { split; [reflexivity|].
      unfold w1, after_transaction, rq1, block_request, REG_BUS_VOLT.
      cbn [now time_of_calls]. ring. }
    destruct (normalized _) as [rr|e].
    + destruct (registers rr) as [|x1 [|x2 [|x3 [|x4 [|x5 rest]]]]];
        cbn [unpack4 length Nat.ltb Nat.leb];
        try (eexists _, w1; split; [reflexivity|]; exact H1).
      rewrite read_regs_run.
      set (rq2 := ReadHolding REG_FREQ 1).
      set (w2 := after_transaction client rq2 w1).
      eexists _, w2. split; [reflexivity|]. split.
      * cbn. rewrite <- app_assoc. reflexivity.
      * unfold w2, w1, after_transaction, rq1, rq2, block_request,
          freq_request, REG_BUS_VOLT, REG_FREQ.
        cbn [now wire time_of_calls].
        rewrite length_app. cbn [length]. rewrite Nat.add_1_r. ring.
    + eexists _, w1. split; [reflexivity|]. exact H1.
  - exists (MsgFault "'NoneType' object has no attribute 'read_regs'"),
      (world a). split; [|split].
    + unfold poll_sample, modbus_read_regs. rewrite Hm.
      destruct a; reflexivity.
    + rewrite app_nil_r. reflexivity.
    + cbn. ring.
Qed.

Lemma poll_cycle_shape (a : App) :
  exists msg w,
    poll_cycle client a = put msg (set_world w a) /\
    wire w = (wire (world a) ++ poll_requests client a)%list.
Proof.
  destruct (poll_sample_requests a) as (msg & w & Heq & Hwire & _).
  destruct (poll_cycle_state client a) as (w' & Hc & Hw' & _).
  rewrite Hc, Heq. exists msg, w'. split; [reflexivity|].
  rewrite Hw', Heq. exact Hwire.
Qed.

(** X6. A poll cycle puts exactly one message on the queue and, on the
    wire, nothing but reads: the block read of four registers from 0x3002
    and, only when that read gave four registers, the read of one register
    from 0x3001; without a connection object it puts nothing on the wire
    and reports the attribute error as a fault.  It never writes to the
    drive, and it leaves the connection, the thread handle, the stop
    event, the interval, the log, the fault table, the popups and the
    widgets as they are. *)
Theorem poll_cycle_touches_queue_and_bus (a : App) :
  let a' := poll_cycle client a in
  (exists msg, ui_queue a' = (ui_queue a ++ [msg])%list) /\
  wire (world a') = (wire (world a) ++ poll_requests client a)%list /\
  (poll_requests client a = [] \/
   poll_requests client a = [ReadHolding 0x3002 4] \/
   poll_requests client a = [ReadHolding 0x3002 4; ReadHolding 0x3001 1]) /\
  (modbus a = None ->
   poll_requests client a = [] /\
   ui_queue a'
   = (ui_queue a
        ++ [MsgFault "'NoneType' object has no attribute 'read_regs'"])%list)
  /\
  (modbus a' = modbus a /\ poll_thread a' = poll_thread a /\
   poll_stop_event a' = poll_stop_event a /\
   last_fault_msg a' = last_fault_msg a /\
   poll_interval a' = poll_interval a /\ threads a' = threads a) /\
  (log_text a' = log_text a /\ fault_tree a' = fault_tree a /\
   errors_shown a' = errors_shown a /\ connect_btn a' = connect_btn a /\
   poll_entry a' = poll_entry a /\ freq_set_entry a' = freq_set_entry a).
Proof.
  intros a'. destruct (poll_cycle_shape a) as (msg & w & Heq & Hwire).
  subst a'. split; [rewrite Heq; cbn; eauto|].
  split; [rewrite Heq; exact Hwire|].
  split; [|split; [|rewrite Heq; cbn; auto 10]].
  - unfold poll_requests. destruct (modbus a); [|auto].
    destruct (fst (read_regs client REG_BUS_VOLT 4 (world a)))
      as [[|x1 [|x2 [|x3 [|x4 [|x5 rest]]]]]|e]; auto.
  - intros Hm. unfold poll_requests. rewrite Hm. split; [reflexivity|].
    unfold poll_cycle, poll_body. rewrite ui_queue_time_sleep.
    unfold poll_sample, modbus_read_regs. rewrite Hm. reflexivity.
Qed.

(** X7. An answer to the block read that does not hold four registers is
    a fault of the cycle: its message is the text of the failed unpacking,
    and the frequency is not read.  An answer to the frequency read that
    holds no register gives a data message whose frequency is absent. *)
Theorem poll_cycle_malformed_answers (a : App) (m : VFDModbus) :
  modbus a = Some m ->
  let block := read_regs client REG_BUS_VOLT 4 (world a) in
  (forall regs,
      fst block = Ok regs -> length regs <> 4%nat ->
      ui_queue (poll_cycle client a)
      = (ui_queue a
           ++ [MsgFault
                 (if (length regs <? 4)%nat
                  then "not enough values to unpack (expected 4, got "
                       ++ str_int (Z.of_nat (length regs)) ++ ")"
                  else "too many values to unpack (expected 4)")])%list /\
      wire (world (poll_cycle client a))
      = (wire (world a) ++ [ReadHolding 0x3002 4])%list) /\
  (forall b o c s,
      fst block = Ok [b; o; c; s] ->
      fst (read_regs client REG_FREQ 1 (snd block)) = Ok [] ->
      exists t,
        ui_queue (poll_cycle client a)
        = (ui_queue a ++ [MsgData {| ts := t; freq := None; bus := b;
                                     out := o; curr := c;
                                     speed := s |}])%list).
Proof.
  intros Hm block. split.
  - intros regs Hb Hlen.
    destruct (poll_cycle_shape a) as (msg & w & Heq & Hwire).
    split.
    + unfold poll_cycle, poll_body.
      rewrite ui_queue_time_sleep, (poll_sample_connected client a m Hm).
      fold block. destruct block as [r w1]. cbn [fst] in Hb. subst r.
      destruct regs as [|x1 [|x2 [|x3 [|x4 [|x5 rest]]]]];
        cbn in Hlen; try congruence; reflexivity.
    + rewrite Heq. cbn. rewrite Hwire. unfold poll_requests. rewrite Hm.
      fold block. rewrite Hb.
      destruct regs as [|x1 [|x2 [|x3 [|x4 [|x5 rest]]]]];
        cbn in Hlen; try congruence; reflexivity.
  - intros b o c s Hb Hf. unfold poll_cycle, poll_body.
    rewrite ui_queue_time_sleep, (poll_sample_connected client a m Hm).
    fold block. destruct block as [r w1]. cbn [fst snd] in Hb, Hf. subst r.
    cbn [unpack4].
    destruct (read_regs client REG_FREQ 1 w1) as [r2 w2]. cbn [fst] in Hf.
    subst r2. eexists. reflexivity.
Qed.

End Cycle.

(** ** vfd_monitor_tk.py: connecting and disconnecting *)

Section Connection.
Variable client : Client.
Variable driver : Driver.
Variable hms : Q -> string.
Variable int_of_text : string -> Result Z.

(** X9. After [disconnect], whatever the state before and however the
    join ended, there is no connection object and no thread handle, the
    button reads "Connect" and the poll loop leaves at its next test.  If
    there was a poll thread the stop event is set; if there was a
    connection the port is closed and the lock is free.  Nothing is sent
    to the drive, in particular no stop command, and no popup is shown;
    the log gets the one line "Disconnected". *)
Theorem disconnect_postcondition (j : JoinOutcome) (a : App) :
  let a' := disconnect hms j a in
  (modbus a' = None /\ poll_thread a' = None /\
   connect_btn a' = "Connect" /\ poll_step client a' = None) /\
  (poll_thread a <> None -> poll_stop_event a' = true) /\
  (modbus a <> None ->
   port_open (world a') = false /\ lock (world a') = false) /\
  (wire (world a') = wire (world a) /\ ui_queue a' = ui_queue a /\
   errors_shown a' = errors_shown a) /\
  log_text a' = (log_text a ++ [log_line hms a' "Disconnected"])%list.
Proof.
  destruct a as [m pt ev q lf pi pe fe btn lg ft er ths w].
  unfold poll_step, poll_condition.
  destruct pt as [k|]; [destruct j as [d|]|]; destruct m as [x|];
    cbn; repeat split; try congruence; rewrite andb_false_r; reflexivity.
Qed.

Lemma binary_round_aux_sign (sx : bool) (mx ex : Z) (lx : location) :
  signed_as sx (binary_round_aux prec emax sx mx ex lx).
Proof.
  unfold binary_round_aux.
  destruct (shr_fexp prec emax mx ex lx) as [mrs' e'].
  destruct (shr_fexp prec emax _ e' loc_Exact) as [mrs'' e''].
  destruct (shr_m mrs'') as [|m|m]; [reflexivity| |exact I].
  destruct (_ <=? _); reflexivity.
Qed.

Lemma binary_normalize_sign (n : Z) :
  n <= 0 ->
  match binary_normalize prec emax n 0 false with
  | S754_zero s => True
  | f => signed_as true f
  end.
Proof.
  intros Hn. destruct n as [|p|p]; [exact I|lia|].
  unfold binary_normalize, binary_round.
  destruct (shl_align p 0 _) as [mz ez].
  pose proof (binary_round_aux_sign true (Z.pos mz) ez loc_Exact) as H.
  destruct (binary_round_aux prec emax true (Z.pos mz) ez loc_Exact);
    cbn in *; auto.
Qed.

Lemma SF2Q_negative (m : positive) (e : Z) :
  (SF2Q (S754_finite true m e) <= 0)%Q.
Proof.
  unfold SF2Q.
  assert (Hv : (0 <= (if 0 <=? e then inject_Z (Z.pos m * 2 ^ e)
                      else Z.pos m # Pos.pow 2 (Z.to_pos (- e))))%Q).
  { destruct (0 <=? e) eqn:He.
    - apply Z.leb_le in He.
      pose proof (Z.pow_nonneg 2 e ltac:(lia)) as Hp.
      assert (Hz : 0 <= Z.pos m * 2 ^ e) by nia.
      revert Hz. generalize (Z.pos m * 2 ^ e). intros z Hz.
      unfold Qle. cbn. lia.
    - unfold Qle. cbn. lia. }
  apply (Qopp_le_compat 0) in Hv. exact Hv.
Qed.

Lemma SF2Q_signed (f : spec_float) :
  signed_as true f -> (SF2Q f <= 0)%Q.
Proof.
  destruct f as [s|s| |s m e]; cbn [signed_as];
    try (intros _; apply Qle_refl).
  intros ->. apply SF2Q_negative.
Qed.

(** The interval that [n / 1000.0] gives for an [n] that is not positive
    is not positive. *)
Lemma div_1000_sign (n : Z) (f : spec_float) :
  n <= 0 -> div_1000 n = Ok f -> (SF2Q f <= 0)%Q.
Proof.
  intros Hn. unfold div_1000, float_of_int.
  pose proof (binary_normalize_sign n Hn) as H.
  destruct (binary_normalize prec emax n 0 false) as [s|s| |s m e];
    cbn [signed_as] in H; try discriminate; intros [= <-].
  - apply Qle_refl.
  - apply Qle_refl.
  - subst s. apply SF2Q_signed.
    change float_1000 with (S754_finite false 8796093022208000 (-43)).
    unfold SFdiv.
    destruct (SFdiv_core_binary prec emax (Z.pos m) e _ _) as [[mz ez] lz].
    apply (binary_round_aux_sign (xorb true false)).
Qed.

Lemma nonpositive_interval_no_sleep (b : App) :
  (poll_interval b <= 0)%Q ->
  (forall k rq, 0 <= snd (client k rq))%Q ->
  (cadence_sleep (time_time b) (poll_sample client b) == 0)%Q.
Proof.
  intros Hi Hd. apply Qle_antisym; [|apply max0_nonneg].
  eapply Qle_trans; [apply (cadence_sleep_bound client b Hd)|].
  apply Q.max_lub; [apply Qle_refl|exact Hi].
Qed.

(** X10. [start_polling], when no poll thread is alive, takes the text
    of the poll entry through [int] and divides by 1000.0: a text that is
    no integer raises, and so does an integer that is too large for a
    float ([OverflowError]); both leave the state as it was, with the stop
    event as it was and no thread started.  Every other integer is
    accepted as the interval in milliseconds without a check of its range,
    also zero and negative ones: the stop event is cleared and a new
    thread is started, and with an interval that is not positive and a
    client whose calls take no negative time every cycle sleeps for 0 s,
    so that the loop polls without a pause. *)
Theorem start_polling_takes_any_interval (a : App) :
  match poll_thread a with
  | Some k => thread_is_alive k a = false
  | None => True
  end ->
  (forall e,
      int_of_text (poll_entry a) = Raise e ->
      start_polling hms int_of_text a = (Raise e, a)) /\
  (forall n e,
      int_of_text (poll_entry a) = Ok n ->
      div_1000 n = Raise e ->
      start_polling hms int_of_text a = (Raise e, a)) /\
  (forall n f,
      int_of_text (poll_entry a) = Ok n ->
      div_1000 n = Ok f ->
      let a' := snd (start_polling hms int_of_text a) in
      fst (start_polling hms int_of_text a) = Ok tt /\
      poll_interval a' = SF2Q f /\
      poll_stop_event a' = false /\
      poll_thread a' = Some (length (threads a)) /\
      thread_is_alive (length (threads a)) a' = true /\
      (n <= 0 ->
       (forall k rq, 0 <= snd (client k rq))%Q ->
       forall b,
         poll_interval b = poll_interval a' ->
         (cadence_sleep (time_time b) (poll_sample client b) == 0)%Q /\
         fst (poll_body client b) = Ok tt /\
         (time_time (poll_cycle client b)
          == time_time (poll_sample client b))%Q)).
Proof.
  intros Hdead.
  assert (Hnot : match poll_thread a with
                 | Some k => thread_is_alive k a
                 | None => false
                 end = false)
    by (destruct (poll_thread a); [exact Hdead|reflexivity]).
  unfold start_polling. rewrite Hnot. split; [|split].
  - intros e ->. reflexivity.
  - intros n e -> ->. reflexivity.
  - intros n f -> Hf. rewrite Hf. cbn [fst snd start_thread].
    split; [reflexivity|]. split; [reflexivity|]. split; [reflexivity|].
    split; [reflexivity|]. split.
    + unfold thread_is_alive. cbn [threads log set_log_text set_poll_thread
                                     set_threads].
      rewrite lookup_app_r by reflexivity. rewrite Nat.sub_diag. reflexivity.
    + intros Hn Hd b Hb.
      assert (Hi : (poll_interval b <= 0)%Q).
      { rewrite Hb. cbn. exact (div_1000_sign n f Hn Hf). }
      pose proof (nonpositive_interval_no_sleep b Hi Hd) as Hz.
      assert (Hl : (cadence_sleep (time_time b) (poll_sample client b)
                    < sleep_limit)%Q) by (rewrite Hz; reflexivity).
      split; [exact Hz|]. unfold poll_cycle.
      rewrite (poll_body_returns client b Hl). split; [reflexivity|].
      cbn [snd]. unfold elapse, on_world, sleep, time_time.
      cbn [snd world set_world now]. unfold time_time in Hz. rewrite Hz.
      ring.
Qed.

(** X11. A connect that fails leaves the monitor disconnected: when the
    baud rate or the address is no integer, the constructor raises, or the
    port does not open, [toggle_connect] shows exactly one popup, starts no
    thread, sends nothing, and leaves the button and the thread handle as
    they were.  The popup is ("Error", text of the exception) for a bad
    number, ("Connection Error", "Constructor error:" and the text) for the
    constructor, ("Serial Error", "Could not open port " and the port)
    when the port reports that it did not open, and ("Connection Error",
    "Connect error:" and the text) when opening raises. *)
Theorem toggle_connect_failure (form : ConnectForm) (j : JoinOutcome)
        (a : App) :
  modbus a = None ->
  (forall baud addr, ~ connect_succeeds driver int_of_text form baud addr) ->
  let a' := toggle_connect driver hms int_of_text form j a in
  let port := port_entry form in
  (exists title msg,
      In title popup_titles /\
      errors_shown a' = (errors_shown a ++ [(title, msg)])%list) /\
  (modbus a' = None /\ poll_thread a' = poll_thread a /\
   threads a' = threads a /\ connect_btn a' = connect_btn a /\
   poll_stop_event a' = poll_stop_event a /\
   wire (world a') = wire (world a) /\ ui_queue a' = ui_queue a) /\
  (forall e,
      int_of_text (baud_cb form) = Raise e ->
      errors_shown a' = (errors_shown a ++ [("Error", str e)])%list) /\
  (forall baud addr e,
      int_of_text (baud_cb form) = Ok baud ->
      int_of_text (addr_entry form) = Ok addr ->
      new_client driver port baud (parity_cb form) = Raise e ->
      errors_shown a'
      = (errors_shown a
           ++ [("Connection Error",
                ("Constructor error:" ++ newline ++ str e)%string)])%list) /\
  (forall baud addr,
      int_of_text (baud_cb form) = Ok baud ->
      int_of_text (addr_entry form) = Ok addr ->
      new_client driver port baud (parity_cb form) = Ok tt ->
      (client_connect driver port = Ok false ->
       errors_shown a'
       = (errors_shown a
            ++ [("Serial Error",
                 ("Could not open port " ++ port)%string)])%list /\
       log_text a'
       = (log_text a ++ [log_line hms a "Failed to open serial port"])%list)
      /\
      (forall e,
          client_connect driver port = Raise e ->
          errors_shown a'
          = (errors_shown a
               ++ [("Connection Error",
                    ("Connect error:" ++ newline ++ str e)%string)])%list)).
Proof.
  intros Hm Hfail a' port. subst a' port. unfold toggle_connect, connect.
  rewrite Hm. unfold popup_titles.
  destruct (int_of_text (baud_cb form)) as [baud|e] eqn:Hb.
  2:{ cbn. rewrite Hm. split; [eexists _, _; split; [|reflexivity]; auto|].
      split; [auto 10|]. split; [intros e' [= <-]; reflexivity|].
      split; [intros baud addr e' [=]|intros baud addr [=]]. }
  destruct (int_of_text (addr_entry form)) as [addr|e] eqn:Ha.
  2:{ cbn. rewrite Hm. split; [eexists _, _; split; [|reflexivity]; auto|].
      split; [auto 10|]. split; [intros e' [=]|].
      split; [intros baud' addr e' _ [=]|intros baud' addr _ [=]]. }
  destruct (new_client driver (port_entry form) baud (parity_cb form))
    as [[]|e] eqn:Hn.
  2:{ cbn. split; [eexists _, _; split; [|reflexivity]; auto|].
      split; [auto 10|]. split; [intros e' [=]|].
      split.
      - intros baud' addr' e' [= <-] [= <-]. rewrite Hn.
        intros [= <-]. reflexivity.
      - intros baud' addr' [= <-] [= <-]. rewrite Hn. intros [=]. }
  destruct (client_connect driver (port_entry form)) as [[|]|e] eqn:Hc.
  - exfalso. apply (Hfail baud addr). repeat split; assumption.
  - cbn. split; [eexists _, _; split; [|reflexivity]; auto|].
    split; [auto 10|]. split; [intros e' [=]|].
    split.
    + intros baud' addr' e' [= <-] [= <-]. rewrite Hn. intros [=].
    + intros baud' addr' _ _ _. split; [|intros e' [=]].
      intros _. split; reflexivity.
  - cbn. split; [eexists _, _; split; [|reflexivity]; auto|].
    split; [auto 10|]. split; [intros e' [=]|].
    split.
    + intros baud' addr' e' [= <-] [= <-]. rewrite Hn. intros [=].
    + intros baud' addr' _ _ _. split; [intros [=]|].
      intros e' [= <-]. reflexivity.
Qed.

(** X12. A connect that succeeds, from a disconnected monitor without a
    thread handle: the connection object takes the address of the entry,
    the button reads "Disconnect", the port is open and the lock free, and
    nothing has been sent.  With a poll entry that holds an integer that
    converts to a float the poll thread is started with that interval and
    its loop condition holds; with a poll entry that holds no integer, or
    an integer too large for a float, the monitor stays connected without
    a poll thread, and the exception is shown in a popup with the title
    "Error". *)
Theorem toggle_connect_success (form : ConnectForm) (j : JoinOutcome)
        (a : App) (baud addr : Z) :
  modbus a = None ->
  poll_thread a = None ->
  connect_succeeds driver int_of_text form baud addr ->
  let a' := toggle_connect driver hms int_of_text form j a in
  (modbus a' = Some {| slave := addr |} /\
   connect_btn a' = "Disconnect" /\
   port_open (world a') = true /\ lock (world a') = false /\
   wire (world a') = wire (world a)) /\
  (forall n f,
      int_of_text (poll_entry a) = Ok n ->
      div_1000 n = Ok f ->
      poll_thread a' = Some (length (threads a)) /\
      thread_is_alive (length (threads a)) a' = true /\
      poll_interval a' = SF2Q f /\
      poll_condition a' = true /\
      errors_shown a' = errors_shown a) /\
  (forall e,
      int_of_text (poll_entry a) = Raise e \/
      (exists n, int_of_text (poll_entry a) = Ok n /\
                 div_1000 n = Raise e) ->
      poll_thread a' = None /\ threads a' = threads a /\
      poll_stop_event a' = poll_stop_event a /\
      errors_shown a' = (errors_shown a ++ [("Error", str e)])%list).
Proof.
  intros Hm Hp (Hb & Ha & Hn & Hc) a'. subst a'.
  unfold toggle_connect, connect. rewrite Hm, Hb, Ha, Hn, Hc.
  unfold start_polling.
  cbn [poll_thread set_connect_btn log set_log_text set_world set_modbus
         poll_entry].
  rewrite Hp.
  destruct (int_of_text (poll_entry a)) as [n|e] eqn:He.
  - destruct (div_1000 n) as [f|e] eqn:Hf.
    + cbn. split; [auto 10|]. split.
      * intros n' f' [= <-] Hf'. rewrite Hf in Hf'. injection Hf' as <-.
        unfold thread_is_alive. cbn.
        rewrite lookup_app_r by reflexivity. rewrite Nat.sub_diag. auto.
      * intros e [[=]|(n' & [= <-] & Hf')]. congruence.
    + cbn. split; [auto 10|]. split.
      * intros n' f' [= <-] Hf'. congruence.
      * intros e' [[=]|(n' & [= <-] & Hf')].
        rewrite Hf in Hf'. injection Hf' as <-. auto.
  - cbn. split; [auto 10|]. split; [intros n f [=]|].
    intros e' [[= <-]|(n' & [=] & _)]. auto.
Qed.

Lemma connect_starts_polling (form : ConnectForm) (a : App)
      (baud addr n : Z) (f : spec_float) :
  poll_thread a = None ->
  connect_succeeds driver int_of_text form baud addr ->
  int_of_text (poll_entry a) = Ok n ->
  div_1000 n = Ok f ->
  let r := connect driver hms int_of_text form a in
  fst r = Ok tt /\
  modbus (snd r) = Some {| slave := addr |} /\
  threads (snd r)
  = (threads a ++ [{| target := PollLoop; is_alive := true |}])%list /\
  poll_thread (snd r) = Some (length (threads a)) /\
  poll_condition (snd r) = true /\
  wire (world (snd r)) = wire (world a).
Proof.
  intros Hp (Hb & Ha & Hn & Hc) He Hf r. subst r.
  unfold connect. rewrite Hb, Ha, Hn, Hc. unfold start_polling.
  cbn [poll_thread set_connect_btn log set_log_text set_world set_modbus
         poll_entry].
  rewrite Hp, He, Hf. cbn. auto 10.
Qed.

(** X13. What becomes of a poll thread that outlives the join of
    [disconnect] depends on what comes first.  The disconnect drops the
    handle and leaves the thread alive, with a loop condition that is
    false: if the thread comes to its loop test before any connect, it
    ends there and has sent nothing.  If a connect that succeeds comes
    first, it clears the stop event, sets a connection object and starts
    a second poll thread; the loop condition then holds again for the
    first thread as well, whose next turn polls the drive: two poll loops
    go on side by side. *)
Theorem reconnect_revives_stale_loop (form : ConnectForm) (j : JoinOutcome)
        (a : App) (m : VFDModbus) (k : nat) (baud addr n : Z)
        (f : spec_float) :
  modbus a = Some m ->
  poll_thread a = Some k ->
  threads a !! k = Some {| target := PollLoop; is_alive := true |} ->
  connect_succeeds driver int_of_text form baud addr ->
  int_of_text (poll_entry a) = Ok n ->
  div_1000 n = Ok f ->
  let a1 := toggle_connect driver hms int_of_text form TimedOut a in
  let a2 := toggle_connect driver hms int_of_text form j a1 in
  let k' := length (threads a) in
  (poll_thread a1 = None /\
   threads a1 !! k = Some {| target := PollLoop; is_alive := true |} /\
   poll_condition a1 = false) /\
  (forall t,
      (0 < t)%nat ->
      let b := run_poll_thread client k t a1 in
      thread_is_alive k b = false /\
      wire (world b) = wire (world a1) /\ ui_queue b = ui_queue a1) /\
  (k <> k' /\
   threads a2 !! k = Some {| target := PollLoop; is_alive := true |} /\
   threads a2 !! k' = Some {| target := PollLoop; is_alive := true |} /\
   poll_thread a2 = Some k' /\
   poll_condition a2 = true /\
   poll_step client a2 = Some (poll_body client a2) /\
   exists rest,
     wire (world (poll_cycle client a2))
     = (wire (world a2) ++ block_request :: rest)%list).
Proof.
  intros Hm Hp Hk Hok He Hf a1 a2 k'.
  assert (Hlt : (k < length (threads a))%nat)
    by (apply lookup_lt_is_Some; eauto).
  assert (H1 : a1 = disconnect hms TimedOut a)
    by (subst a1; unfold toggle_connect; rewrite Hm; reflexivity).
  assert (Hs : modbus a1 = None /\ poll_thread a1 = None /\
               threads a1 = threads a /\ poll_entry a1 = poll_entry a).
  { rewrite H1. clear -Hp.
    destruct a as [m pt ev q lf pi pe fe btn lg ft er ths w].
    cbn in Hp. subst pt. destruct m; cbn; auto. }
  destruct Hs as (Hm1 & Hp1 & Ht1 & He1).
  assert (Hc1 : poll_condition a1 = false).
  { unfold poll_condition. rewrite Hm1.
    rewrite bool_decide_eq_false_2 by (intros [x Hx]; discriminate).
    apply andb_false_r. }
  rewrite <- He1 in He.
  pose proof (connect_starts_polling form a1 baud addr n f Hp1 Hok He Hf)
    as (Hr & Hm2 & Ht & Hpt & Hcond & _).
  assert (H2 : a2 = snd (connect driver hms int_of_text form a1)).
  { subst a2. unfold toggle_connect. rewrite Hm1.
    destruct (connect driver hms int_of_text form a1) as [r b].
    cbn in Hr. subst r. reflexivity. }
  rewrite <- H2, Ht1 in *. fold k' in Hpt.
  split; [|split].
  - split; [exact Hp1|]. split; [exact Hk|exact Hc1].
  - intros t Ht0 b. subst b. unfold run_poll_thread.
    destruct t as [|t]; [lia|].
    cbn [poll_loop]. unfold poll_step. rewrite Hc1.
    split; [|split; reflexivity].
    unfold thread_is_alive, thread_exit. cbn [threads set_threads].
    rewrite list_lookup_alter, Ht1, Hk.
    destruct (decide (k = k)); [reflexivity|congruence].
  - split; [lia|]. split; [|split; [|split; [exact Hpt|split; [exact Hcond|]]]].
    + rewrite Ht, lookup_app_l by exact Hlt. exact Hk.
    + rewrite Ht. subst k'. rewrite lookup_app_r by reflexivity.
      rewrite Nat.sub_diag. reflexivity.
    + split; [unfold poll_step; rewrite Hcond; reflexivity|].
      destruct (poll_cycle_shape client a2) as (msg & w & Heq & Hw).
      rewrite Heq. cbn [world put set_ui_queue set_world]. rewrite Hw.
      unfold poll_requests. rewrite Hm2.
      destruct (fst (read_regs client REG_BUS_VOLT 4 (world a2)))
        as [[|x1 [|x2 [|x3 [|x4 [|x5 rest]]]]]|e]; eexists; reflexivity.
Qed.

End Connection.

(** ** vfd_monitor_tk.py: the charts and the consumer of the queue *)

Lemma window_short {A} (l : list A) :
  (length l <= max_points)%nat -> window l = l.
Proof.
  intros H. unfold window.
  replace (length l - max_points)%nat with 0%nat by lia. reflexivity.
Qed.

Lemma window_length {A} (l : list A) :
  length (window l) = Nat.min (length l) max_points.
Proof. unfold window. rewrite length_drop. lia. Qed.

Lemma window_snoc {A} (l : list A) (x : A) :
  window (window l ++ [x]) = window (l ++ [x]).
Proof.
  assert (Hpos : (0 < max_points)%nat) by (unfold max_points; lia).
  unfold window. rewrite !length_app, length_drop. cbn [length].
  destruct (le_lt_dec (length l) max_points) as [Hle|Hgt].
  - replace (length l - max_points)%nat with 0%nat by lia.
    cbn [drop]. f_equal. lia.
  - rewrite drop_app_le by (rewrite length_drop; lia).
    rewrite drop_drop.
    rewrite (drop_app_le l) by lia.
    f_equal. f_equal. lia.
Qed.

Section Charts.
Variable format_2f : spec_float -> string.

(** What [update_data] does to one series [l] that is as long as [times]. *)
Lemma update_series (d : Snapshot) (v : View) :
  aligned v ->
  let v' := update_data format_2f d v in
  times v' = window (times v ++ [ts d]) /\
  freqs v' = window (freqs v ++ [plotted_freq d]) /\
  volts v' = window (volts v ++ [out d]) /\
  currs v' = window (currs v ++ [curr d]).
Proof.
  intros (Hf & Hv & Hc) v'. subst v'. unfold update_data.
  cbn [times freqs volts currs].
  assert (Hshape : forall w : View,
             times (redraw_charts w) = times w /\
             freqs (redraw_charts w) = freqs w /\
             volts (redraw_charts w) = volts w /\
             currs (redraw_charts w) = currs w).
  { intros w. unfold redraw_charts. destruct (times w) eqn:E; cbn; rewrite ?E; repeat split; reflexivity. }
  match goal with |- context [redraw_charts ?w] =>
    destruct (Hshape w) as (-> & -> & -> & ->) end.
  destruct (max_points <? length (times v ++ [ts d]))%nat eqn:Hlt.
  - cbn [times freqs volts currs]. unfold slice_last, window, plotted_freq.
    cbn [max_points]. auto.
  - apply Nat.ltb_ge in Hlt. rewrite length_app in Hlt. cbn in Hlt.
    cbn [times freqs volts currs].
    rewrite !window_short
      by (rewrite length_app; cbn [length]; lia).
    auto.
Qed.


Lemma update_data_aligned (d : Snapshot) (v : View) :
  aligned v -> aligned (update_data format_2f d v).
Proof.
  intros Ha. unfold aligned.
  destruct (update_series d v Ha) as (-> & -> & -> & ->).
  destruct Ha as (Hf & Hv & Hc).
  rewrite !window_length, !length_app. cbn [length]. lia.
Qed.

(** X14. The charts keep the newest 300 samples: after any sequence of
    data messages, each of the four series is the series before, extended
    by the new values in their order and cut to its last 300 elements (a
    snapshot without frequency contributes nan), so the four series stay
    of one length, which grows by one per message up to 300. *)
Theorem chart_series_window (ds : list Snapshot) (v0 : View) :
  aligned v0 ->
  (length (times v0) <= max_points)%nat ->
  let v := feed format_2f ds v0 in
  times v = window (times v0 ++ map ts ds) /\
  freqs v = window (freqs v0 ++ map plotted_freq ds) /\
  volts v = window (volts v0 ++ map out ds) /\
  currs v = window (currs v0 ++ map curr ds) /\
  length (times v) = Nat.min (length (times v0) + length ds) max_points.
Proof.
  intros Ha Hlen v.
  assert (H : aligned v /\
              times v = window (times v0 ++ map ts ds) /\
              freqs v = window (freqs v0 ++ map plotted_freq ds) /\
              volts v = window (volts v0 ++ map out ds) /\
              currs v = window (currs v0 ++ map curr ds)).
  { subst v. induction ds as [|d ds IH] using rev_ind.
    - cbn. rewrite !app_nil_r. destruct Ha as (Hf & Hv & Hc).
      rewrite !window_short by lia. unfold aligned. auto.
    - unfold feed in *. rewrite fold_left_app. cbn [fold_left].
      destruct IH as (IHa & IHt & IHf & IHv & IHc).
      split; [apply update_data_aligned; exact IHa|].
      destruct (update_series d _ IHa) as (-> & -> & -> & ->).
      rewrite IHt, IHf, IHv, IHc, !window_snoc, !map_app, !app_assoc.
      auto. }
  destruct H as (_ & Ht & Hf & Hv & Hc).
  repeat (split; [assumption|]).
  rewrite Ht, window_length, length_app, length_map. reflexivity.
Qed.

Lemma update_data_shape (d : Snapshot) (v : View) :
  let v' := update_data format_2f d v in
  (exists t0 rest,
      times v' = t0 :: rest /\
      ax_f v' = (map (fun t => t - t0)%Q (times v'), freqs v') /\
      ax_v v' = (map (fun t => t - t0)%Q (times v'), volts v') /\
      ax_c v' = (map (fun t => t - t0)%Q (times v'), currs v')) /\
  last (times v') = Some (ts d) /\
  last (volts v') = Some (out d) /\
  last (currs v') = Some (curr d) /\
  last (freqs v') = Some (plotted_freq d) /\
  (length (times v') <= max_points)%nat /\
  (freq d = None -> freq_var v' = freq_var v).
Proof.
  intros v'. subst v'.
  unfold update_data.
  set (v1 := {| freq_var := _; times := times v ++ [ts d] |}).
  set (v2 := if (max_points <? length (times v1))%nat then _ else v1).
  assert (H2 : last (times v2) = Some (ts d) /\
               last (volts v2) = Some (out d) /\
               last (currs v2) = Some (curr d) /\
               last (freqs v2) = Some (plotted_freq d) /\
               (length (times v2) <= max_points)%nat /\
               freq_var v2 = freq_var v1).
  { subst v2. destruct (max_points <? length (times v1))%nat eqn:Hlt.
    - cbn [times freqs volts currs freq_var]. unfold slice_last.
      cbn [max_points].
      assert (Hd : forall {A} (l : list A) (x : A),
                 last (drop (length (l ++ [x]) - max_points) (l ++ [x]))
                 = Some x).
      { intros A l x. rewrite length_app. cbn [length].
        rewrite drop_app_le by (unfold max_points; lia). apply last_snoc. }
      subst v1. cbn [times freqs volts currs]. unfold plotted_freq.
      rewrite !Hd. repeat split.
      rewrite length_drop. unfold max_points. lia.
    - apply Nat.ltb_ge in Hlt. subst v1. cbn [times freqs volts currs] in *.
      rewrite !last_snoc. auto 10. }
  destruct H2 as (Ht & Hv & Hc & Hf & Hlen & Hfv).
  assert (Hne : exists t0 rest, times v2 = t0 :: rest).
  { destruct (times v2) as [|t0 rest]; [discriminate|eauto]. }
  destruct Hne as (t0 & rest & Htimes).
  unfold redraw_charts. rewrite Htimes.
  cbn [times freqs volts currs ax_f ax_v ax_c freq_var].
  rewrite <- Htimes.
  split; [exists t0, rest; auto|].
  repeat (split; [assumption|]).
  intros Hnone. rewrite Hfv. subst v1. cbn [freq_var]. rewrite Hnone.
  reflexivity.
Qed.

(** X15. Every [update_data] redraws the three charts from the series
    as they are after it: the series are not empty, their newest element
    is the one of the snapshot, at most 300 are kept, and each chart plots
    its series against the times taken relative to the oldest kept
    sample.  A snapshot without frequency leaves the frequency label with
    the value it showed before, and the bus voltage of the snapshot has
    no effect on the view. *)
Theorem update_data_redraws (d : Snapshot) (v : View) :
  let v' := update_data format_2f d v in
  (exists t0 rest,
      times v' = t0 :: rest /\
      ax_f v' = (map (fun t => t - t0)%Q (times v'), freqs v') /\
      ax_v v' = (map (fun t => t - t0)%Q (times v'), volts v') /\
      ax_c v' = (map (fun t => t - t0)%Q (times v'), currs v')) /\
  last (times v') = Some (ts d) /\
  last (volts v') = Some (out d) /\
  last (currs v') = Some (curr d) /\
  last (freqs v') = Some (plotted_freq d) /\
  (length (times v') <= max_points)%nat /\
  (freq d = None -> freq_var v' = freq_var v) /\
  (forall b,
      update_data format_2f
        {| ts := ts d; freq := freq d; bus := b; out := out d;
           curr := curr d; speed := speed d |} v = v').
Proof.
  intros v'.
  destruct (update_data_shape d v) as (H1 & H2 & H3 & H4 & H5 & H6 & H7).
  fold v' in H1, H2, H3, H4, H5, H6, H7.
  repeat (split; [assumption|]). intros b. reflexivity.
Qed.

End Charts.

Section Queue.
Variable hms : Q -> string.
Variable format_2f : spec_float -> string.

(** The fields that only [connect] and [disconnect] write. *)
Lemma handle_keeps (m : Msg) (g : Gui) :
  let g' := handle hms format_2f m g in
  ui_queue (app g') = ui_queue (app g) /\
  modbus (app g') = modbus (app g) /\
  poll_thread (app g') = poll_thread (app g) /\
  poll_stop_event (app g') = poll_stop_event (app g) /\
  connect_btn (app g') = connect_btn (app g) /\
  threads (app g') = threads (app g) /\
  world (app g') = world (app g).
Proof.
  destruct m as [d|s|s]; cbn [handle app].
  - auto 10.
  - unfold show_fault. cbn [last_fault_msg set_fault_tree log set_log_text].
    destruct (bool_decide _); cbn; auto 10.
  - cbn. auto 10.
Qed.

Lemma show_fault_log (s : string) (a : App) :
  log_text (show_fault hms s a)
  = (log_text a ++ [log_line hms a ("? " ++ s)])%list /\
  ui_queue (show_fault hms s a) = ui_queue a.
Proof.
  unfold show_fault. case_bool_decide; cbn; auto.
Qed.

Lemma drain_spec (q : list Msg) :
  forall (n : nat) (g : Gui),
    ui_queue (app g) = q ->
    (length q <= n)%nat ->
    let g' := drain hms format_2f n g in
    ui_queue (app g') = [] /\
    view g' = feed format_2f (data_of q) (view g) /\
    errors_shown (app g')
    = (errors_shown (app g)
         ++ map (pair fault_title)
                (presented (last_fault_msg (app g)) (faults_of q)))%list /\
    map snd (fault_tree (app g'))
    = (map snd (fault_tree (app g)) ++ faults_of q)%list /\
    log_text (app g')
    = (log_text (app g) ++ map (log_line hms (app g)) (lines_of q))%list /\
    (modbus (app g') = modbus (app g) /\
     poll_thread (app g') = poll_thread (app g) /\
     poll_stop_event (app g') = poll_stop_event (app g) /\
     connect_btn (app g') = connect_btn (app g) /\
     threads (app g') = threads (app g) /\
     world (app g') = world (app g)).
Proof.
  induction q as [|m rest IH]; intros n g Hq Hn.
  - destruct n; cbn [drain]; rewrite ?Hq; cbn; rewrite ?app_nil_r; auto 15.
  - destruct n as [|n]; [cbn in Hn; lia|].
    cbn [drain]. rewrite Hq.
    set (g0 := {| app := set_ui_queue rest (app g); view := view g |}).
    destruct (handle_keeps m g0) as (Hk & Hm & Hp & He & Hb & Ht & Hw).
    cbv zeta in IH.
    destruct (IH n (handle hms format_2f m g0)) as
        (I1 & I2 & I3 & I4 & I5 & J1 & J2 & J3 & J4 & J5 & J6);
      [rewrite Hk; reflexivity|cbn in Hn; lia|].
    cbv zeta.
    rewrite I1, I2, I3, I4, I5, J1, J2, J3, J4, J5, J6, Hm, Hp, He, Hb, Ht, Hw.
    assert (Hline : log_line hms (app (handle hms format_2f m g0))
                    = log_line hms (app g)).
    { unfold log_line, time_time. rewrite Hw. reflexivity. }
    rewrite Hline.
    split; [reflexivity|]. subst g0. clear.
    destruct m as [d|s|s]; cbn [handle app view data_of faults_of lines_of
                                 omap feed fold_left list_omap].
    + cbn. auto 15.
    + destruct (show_fault_step hms s (set_ui_queue rest (app g)))
        as (S1 & S2 & S3).
      rewrite S1, S2, S3. cbn [errors_shown fault_tree last_fault_msg
                                 set_ui_queue presented map].
      split; [reflexivity|]. split.
      * destruct (bool_decide (Some s = last_fault_msg (app g)));
          cbn; rewrite <- ?app_assoc; reflexivity.
      * split; [rewrite map_app, <- app_assoc; reflexivity|].
        split; [|cbn; auto 10].
        rewrite (proj1 (show_fault_log _ _)). unfold log_line, time_time.
        cbn [log_text set_ui_queue world].
        rewrite <- app_assoc; reflexivity.
    + cbn. rewrite <- app_assoc. auto 15.
Qed.

End Queue.

Section Delivery.
Variable client : Client.
Variable hms : Q -> string.
Variable format_2f : spec_float -> string.

(** X16. [process_ui_queue] takes every message off the queue, oldest
    first: afterwards the queue is empty, the view is the one obtained by
    [update_data] for the data messages in their order, the log has one
    line for each log message and each fault, the fault table one row for
    each fault; the connection, the threads, the stop event, the button
    and the serial line are not touched. *)
Theorem process_ui_queue_delivers (g : Gui) :
  let q := ui_queue (app g) in
  let g' := process_ui_queue hms format_2f g in
  ui_queue (app g') = [] /\
  view g' = feed format_2f (data_of q) (view g) /\
  log_text (app g')
  = (log_text (app g) ++ map (log_line hms (app g)) (lines_of q))%list /\
  map snd (fault_tree (app g'))
  = (map snd (fault_tree (app g)) ++ faults_of q)%list /\
  modbus (app g') = modbus (app g) /\
  poll_thread (app g') = poll_thread (app g) /\
  poll_stop_event (app g') = poll_stop_event (app g) /\
  connect_btn (app g') = connect_btn (app g) /\
  threads (app g') = threads (app g) /\
  world (app g') = world (app g).
Proof.
  intros q g'. subst q g'. unfold process_ui_queue.
  destruct (drain_spec hms format_2f _ _ g eq_refl (le_n _))
    as (H1 & H2 & _ & H4 & H5 & H6).
  tauto.
Qed.

(** X17. The popups raised while a queue is processed depend only on
    its faults: a popup is raised for each fault whose text differs from
    the fault before it, the first being compared with the fault shown
    last; data and log messages between two faults of one text do not
    bring the popup back.  A queue whose faults all repeat the fault shown
    last raises none. *)
Theorem queued_faults_deduplicated (g : Gui) :
  let q := ui_queue (app g) in
  let g' := process_ui_queue hms format_2f g in
  errors_shown (app g')
  = (errors_shown (app g)
       ++ map (pair fault_title)
              (presented (last_fault_msg (app g)) (faults_of q)))%list /\
  (forall s,
      last_fault_msg (app g) = Some s ->
      Forall (fun m => m = s) (faults_of q) ->
      errors_shown (app g') = errors_shown (app g)).
Proof.
  intros q g'. subst q g'. unfold process_ui_queue.
  destruct (drain_spec hms format_2f _ _ g eq_refl (le_n _))
    as (_ & _ & H3 & _).
  split; [exact H3|].
  intros s Hs Hall. rewrite H3, Hs.
  assert (Hp : presented (Some s) (faults_of (ui_queue (app g))) = []).
  { clear -Hall. induction Hall as [|m l -> _ IH]; [reflexivity|].
    cbn [presented]. rewrite bool_decide_eq_true_2 by reflexivity.
    exact IH. }
  rewrite Hp. cbn. apply app_nil_r.
Qed.

(** X18. From the drive to the window: when the block read of a poll
    cycle is answered with four registers [b; o; c; s], the cycle queues
    one data message, and the next [process_ui_queue] shows [o], the
    register 0x3003, in the voltage label, [c] in the current label and
    [s] in the speed label, and appends [o] and [c] to the charts; the
    voltage label shows the output voltage [o], not the bus voltage [b]
    that the message carries.  No popup and no row of the fault table
    results. *)
Theorem sample_reaches_the_charts (a : App) (m : VFDModbus) (v : View)
        (rr : Response) (b o c s : Z) :
  modbus a = Some m ->
  ui_queue a = [] ->
  fst (client (length (wire (world a))) block_request) = Returned rr ->
  isError rr = false ->
  registers rr = [b; o; c; s] ->
  let g' := process_ui_queue hms format_2f
              {| app := poll_cycle client a; view := v |} in
  (exists d,
      ui_queue (poll_cycle client a) = [MsgData d] /\
      bus d = b /\ out d = o /\ curr d = c /\ speed d = s /\
      view g' = update_data format_2f d v) /\
  ui_queue (app g') = [] /\
  volt_var (view g') = str_int o /\
  curr_var (view g') = str_int c /\
  speed_var (view g') = str_int s /\
  last (volts (view g')) = Some o /\
  last (currs (view g')) = Some c /\
  errors_shown (app g') = errors_shown a /\
  fault_tree (app g') = fault_tree a.
Proof.
  intros Hm Hq Hrr Herr Hregs g'.
  assert (Hd : exists d w,
             poll_cycle client a = set_world w (put (MsgData d) a) /\
             bus d = b /\ out d = o /\ curr d = c /\ speed d = s).
  { destruct (poll_cycle_state client a) as (w' & -> & _).
    rewrite (poll_sample_connected client a m Hm), read_regs_run.
    fold block_request. rewrite Hrr. unfold normalized. rewrite Herr.
    rewrite Hregs. cbn [unpack4].
    destruct (read_regs client REG_FREQ 1 _) as [r2 w2].
    eexists _, _. split; [reflexivity|]. cbn. auto. }
  destruct Hd as (d & w & Hcycle & Hb & Ho & Hc & Hs).
  assert (Hqueue : ui_queue (poll_cycle client a) = [MsgData d])
    by (rewrite Hcycle; cbn; rewrite Hq; reflexivity).
  subst g'. unfold process_ui_queue. cbn [app]. rewrite Hqueue.
  cbn [length drain app view handle].
  rewrite Hqueue. cbn [drain app view handle].
  destruct (update_data_shape format_2f d v)
    as (_ & _ & Hlv & Hlc & _).
  split; [exists d; auto 10|].
  rewrite Hlv, Hlc, Ho, Hc. rewrite Hcycle.
  unfold update_data at 1 2 3.
  match goal with |- context [redraw_charts ?x] =>
    assert (Hvars : volt_var (redraw_charts x) = volt_var x /\
                    curr_var (redraw_charts x) = curr_var x /\
                    speed_var (redraw_charts x) = speed_var x)
      by (unfold redraw_charts; destruct (times x); cbn; auto);
    destruct Hvars as (-> & -> & ->)
  end.
  rewrite <- Ho, <- Hc, <- Hs.
  destruct (max_points <? _)%nat; cbn; auto 10.
Qed.

End Delivery.

(** ** What every operation keeps *)

Section Invariant.
Variable client : Client.
Variable driver : Driver.
Variable hms : Q -> string.
Variable int_of_text : string -> Result Z.
Variable format_2f : spec_float -> string.

Lemma consistent_fields (a b : App) :
  modbus b = modbus a -> connect_btn b = connect_btn a ->
  poll_thread b = poll_thread a ->
  consistent a -> consistent b.
Proof. unfold consistent. intros -> -> ->. auto. Qed.

Lemma disconnect_fields (j : JoinOutcome) (a : App) :
  modbus (disconnect hms j a) = None /\
  connect_btn (disconnect hms j a) = "Connect" /\
  poll_thread (disconnect hms j a) = None.
Proof.
  destruct a as [m pt ev q lf pi pe fe btn lg ft er ths w].
  destruct pt as [k|]; [destruct j as [d|]|]; destruct m as [x|];
    cbn; auto.
Qed.

Lemma modbus_write_reg_fields (addr value : Z) (a : App) :
  let b := snd (modbus_write_reg client addr value a) in
  modbus b = modbus a /\ connect_btn b = connect_btn a /\
  poll_thread b = poll_thread a.
Proof.
  unfold modbus_write_reg, on_world. destruct (modbus a) eqn:Hm.
  - destruct (write_reg client addr value (world a)) as [r w]. cbn. auto.
  - cbn. auto.
Qed.

(** X19. The button and the thread handle follow the connection: if
    the button reads "Disconnect" exactly when there is a connection
    object, and there is no thread handle without one, then the same
    holds after [toggle_connect] (whether it connects, fails to, or
    disconnects), after [send_control] and [set_freq], after a poll cycle,
    after a write job, and after [process_ui_queue]. *)
Theorem button_follows_connection (a : App) :
  consistent a ->
  (forall form j,
      consistent (toggle_connect driver hms int_of_text form j a)) /\
  (forall code, consistent (send_control hms code a)) /\
  consistent (set_freq hms int_of_text a) /\
  consistent (poll_cycle client a) /\
  (forall code, consistent (control_job client code a)) /\
  (forall v, consistent (set_freq_job client v a)) /\
  (forall v, consistent (app (process_ui_queue hms format_2f
                                {| app := a; view := v |}))).
Proof.
  intros Hc.
  split; [|split; [|split; [|split; [|split; [|split]]]]].
  - intros form j. unfold toggle_connect.
    destruct (modbus a) as [m|] eqn:Hm.
    + destruct (disconnect_fields j a) as (H1 & H2 & H3).
      unfold consistent. rewrite H1, H2, H3. auto.
    + unfold consistent in Hc. rewrite Hm in Hc. destruct Hc as [Hb Hp].
      unfold connect.
      destruct (int_of_text (baud_cb form)) as [baud|e];
        [|unfold consistent; cbn; rewrite Hm; auto].
      destruct (int_of_text (addr_entry form)) as [addr|e];
        [|unfold consistent; cbn; rewrite Hm; auto].
      destruct (new_client driver (port_entry form) baud (parity_cb form))
        as [[]|e]; [|unfold consistent; cbn; auto].
      destruct (client_connect driver (port_entry form)) as [[|]|e];
        [|unfold consistent; cbn; auto..].
      unfold start_polling.
      cbn [poll_thread set_connect_btn log set_log_text set_world set_modbus
             poll_entry].
      rewrite Hp.
      destruct (int_of_text (poll_entry a)) as [n|e];
        [destruct (div_1000 n)|]; unfold consistent; cbn; auto.
  - intros code. unfold send_control.
    destruct (modbus a) eqn:Hm;
      (eapply consistent_fields; [| | |exact Hc]); reflexivity.
  - unfold set_freq. destruct (modbus a) eqn:Hm;
      [destruct (int_of_text (freq_set_entry a))|];
      (eapply consistent_fields; [| | |exact Hc]); reflexivity.
  - destruct (poll_cycle_shape client a) as (msg & w & -> & _).
    eapply consistent_fields; [| | |exact Hc]; reflexivity.
  - intros code. unfold control_job.
    destruct (modbus_write_reg_fields REG_CONTROL code a) as (H1 & H2 & H3).
    destruct (modbus_write_reg client REG_CONTROL code a) as [[r|e] b];
      (eapply consistent_fields; [| | |exact Hc]); assumption.
  - intros v. unfold set_freq_job.
    destruct (modbus_write_reg_fields REG_SET_FREQ v a) as (H1 & H2 & H3).
    destruct (modbus_write_reg client REG_SET_FREQ v a) as [[r|e] b];
      (eapply consistent_fields; [| | |exact Hc]); assumption.
  - intros v. unfold process_ui_queue.
    destruct (drain_spec hms format_2f _ _ {| app := a; view := v |}
                eq_refl (le_n _))
      as (_ & _ & _ & _ & _ & H1 & H2 & _ & H3 & _).
    eapply consistent_fields; [exact H1|exact H3|exact H2|exact Hc].
Qed.

End Invariant.

(** ** vfd_modbus.py: the lock never blocks for good *)

Lemma reachable_rtc (s s' : State) :
  reachable s -> rtc step s s' -> reachable s'.
Proof.
  intros Hr Hs. induction Hs as [|s s1 s2 H1 _ IH]; [exact Hr|].
  apply IH. exact (reachable_step s s1 Hr H1).
Qed.

(** The thread inside the [with] block runs to its end, whatever the
    other threads do. *)
Lemma holder_can_leave (s : State) (j : nat) (o : Op) (p : Phase) :
  tasks s !! j = Some (mkTask o p) ->
  in_section (mkTask o p) = true ->
  (p = Closing -> o = OpClose) ->
  exists s' r,
    rtc step s s' /\
    lock_held s' = false /\
    tasks s' !! j = Some (mkTask o (Left r)) /\
    (forall i, i <> j -> tasks s' !! i = tasks s !! i).
Proof.
  intros Hj Hin Hclose.
  assert (Hans : forall s0 c,
             tasks s0 !! j = Some (mkTask o (Answered c)) ->
             exists s' r,
               rtc step s0 s' /\ lock_held s' = false /\
               tasks s' !! j = Some (mkTask o (Left r)) /\
               (forall i, i <> j -> tasks s' !! i = tasks s0 !! i)).
  { intros s0 c H0. eexists _, _. split; [|split; [|split]].
    - apply rtc_once. exact (step_leave s0 j o c H0).
    - reflexivity.
    - cbn. apply lookup_insert_eq.
    - intros i Hi. cbn. apply lookup_insert_ne. congruence. }
  assert (Hwire : forall s0,
             tasks s0 !! j = Some (mkTask o OnWire) ->
             exists s' r,
               rtc step s0 s' /\ lock_held s' = false /\
               tasks s' !! j = Some (mkTask o (Left r)) /\
               (forall i, i <> j -> tasks s' !! i = tasks s0 !! i)).
  { intros s0 H0.
    set (c := Raised (OtherException "Exception" "timeout")).
    set (s1 := {| lock_held := lock_held s0;
                  tasks := <[j := mkTask o (Answered c)]> (tasks s0) |}).
    destruct (Hans s1 c) as (s' & r & Hs & Hl & Ht & Hrest);
      [apply lookup_insert_eq|].
    exists s', r. split; [|split; [exact Hl|split; [exact Ht|]]].
    - eapply rtc_l; [exact (step_answer s0 j o c H0)|exact Hs].
    - intros i Hi. rewrite (Hrest i Hi). cbn. apply lookup_insert_ne.
      congruence. }
  destruct p as [| | |c| |r]; try discriminate.
  - set (s1 := {| lock_held := lock_held s;
                  tasks := <[j := mkTask o OnWire]> (tasks s) |}).
    destruct (Hwire s1) as (s' & r & Hs & Hl & Ht & Hrest);
      [apply lookup_insert_eq|].
    exists s', r. split; [|split; [exact Hl|split; [exact Ht|]]].
    + eapply rtc_l; [exact (step_settled s j o Hj)|exact Hs].
    + intros i Hi. rewrite (Hrest i Hi). cbn. apply lookup_insert_ne.
      congruence.
  - apply Hwire. exact Hj.
  - apply (Hans s c). exact Hj.
  - rewrite (Hclose eq_refl) in *.
    eexists _, _. split; [|split; [|split]].
    + apply rtc_once. exact (step_closed s j Hj).
    + reflexivity.
    + cbn. apply lookup_insert_eq.
    + intros i Hi. cbn. apply lookup_insert_ne. congruence.
Qed.

(** Only [close] is ever in the phase of closing the port. *)
Lemma closing_is_close (s : State) :
  reachable s ->
  forall i o, tasks s !! i = Some (mkTask o Closing) -> o = OpClose.
Proof.
  induction 1 as [|s s' Hr IH Hstep]; intros i o Hi.
  - cbn in Hi. rewrite lookup_empty in Hi. discriminate.
  - destruct Hstep as [s k op Hk|s k op Hk Hl|s k op Hk|s k op c Hk
                       |s k op c Hk|s k Hk];
      cbn in Hi;
      (destruct (decide (k = i)) as [->|Hne];
       [rewrite lookup_insert_eq in Hi
       |rewrite lookup_insert_ne in Hi by exact Hne; exact (IH i o Hi)]);
      try discriminate.
    destruct op; cbn in Hi; congruence.
Qed.

(** X20. No call waits for the lock for ever: in every state that the
    threads can reach, each call that has started can run to its end, in
    steps of the threads that have already called, without any new call;
    a call that waits gets the lock as soon as its holder, who never
    waits for anything, has left the section. *)
Theorem every_call_can_complete (s : State) (i : nat) (t : Task) :
  reachable s ->
  tasks s !! i = Some t ->
  exists s' r,
    rtc step s s' /\
    reachable s' /\
    tasks s' !! i = Some (mkTask (op t) (Left r)) /\
    (forall k, tasks s !! k = None -> tasks s' !! k = None).
Proof.
  intros Hr Hi. destruct t as [o p]. cbn [op].
  assert (Hrun : forall s0 p0,
             reachable s0 ->
             tasks s0 !! i = Some (mkTask o p0) ->
             in_section (mkTask o p0) = true ->
             exists s' r,
               rtc step s0 s' /\ reachable s' /\
               tasks s' !! i = Some (mkTask o (Left r)) /\
               (forall k, tasks s0 !! k = None -> tasks s' !! k = None)).
  { intros s0 p0 Hr0 H0 Hin.
    destruct (holder_can_leave s0 i o p0 H0 Hin) as (s' & r & Hs & _ & Ht & Hrest).
    { intros ->. exact (closing_is_close s0 Hr0 i o H0). }
    exists s', r. split; [exact Hs|]. split; [exact (reachable_rtc _ _ Hr0 Hs)|].
    split; [exact Ht|]. intros k Hk. rewrite Hrest; [exact Hk|].
    intros ->. congruence. }
  assert (Hwait : forall s0,
             reachable s0 ->
             tasks s0 !! i = Some (mkTask o Waiting) ->
             lock_held s0 = false ->
             exists s' r,
               rtc step s0 s' /\ reachable s' /\
               tasks s' !! i = Some (mkTask o (Left r)) /\
               (forall k, tasks s0 !! k = None -> tasks s' !! k = None)).
  { intros s0 Hr0 H0 Hl.
    pose proof (step_acquire s0 i o H0 Hl) as Hstep.
    set (s1 := {| lock_held := true;
                  tasks := <[i := mkTask o (entered o)]> (tasks s0) |}) in *.
    destruct (Hrun s1 (entered o)) as (s' & r & Hs & Hr' & Ht & Hrest).
    - exact (reachable_step s0 s1 Hr0 Hstep).
    - apply lookup_insert_eq.
    - destruct o; reflexivity.
    - exists s', r. split; [eapply rtc_l; [exact Hstep|exact Hs]|].
      split; [exact Hr'|]. split; [exact Ht|].
      intros k Hk. apply Hrest. cbn. rewrite lookup_insert_ne; [exact Hk|].
      intros ->. congruence. }
  destruct (in_section (mkTask o p)) eqn:Hin; [exact (Hrun s p Hr Hi Hin)|].
  destruct p as [| | |c| |r]; try discriminate.
  - destruct (lock_held s) eqn:Hl; [|exact (Hwait s Hr Hi Hl)].
    destruct (inv_reachable s Hr) as (_ & _ & Hheld).
    destruct (Hheld Hl) as (j & [oj pj] & Hj & Hjin).
    destruct (holder_can_leave s j oj pj Hj Hjin)
      as (s1 & r1 & Hs1 & Hl1 & Ht1 & Hrest1).
    { intros ->. exact (closing_is_close s Hr j oj Hj). }
    assert (Hij : i <> j) by (intros ->; rewrite Hi in Hj; inversion Hj; subst;
                              discriminate).
    pose proof (reachable_rtc _ _ Hr Hs1) as Hr1.
    destruct (Hwait s1 Hr1) as (s' & r & Hs & Hr' & Ht & Hrest);
      [rewrite (Hrest1 i Hij); exact Hi|exact Hl1|].
    exists s', r. split; [etrans; eassumption|]. split; [exact Hr'|].
    split; [exact Ht|]. intros k Hk. apply Hrest. rewrite Hrest1; [exact Hk|].
    intros ->. congruence.
  - exists s, r. split; [reflexivity|]. auto.
Qed.

(** ** The further properties on the sample states *)

Lemma decode_unknown_for_every_integer_witness :
  EXCEPTION_DICT !! 4 = Some (decode_exception_code 4) /\
  decode_exception_code 300 = "Unknown exception code 0x12C" /\
  decode_exception_code (-1) = "Unknown exception code 0x-1".
Proof.
  split; [|split].
  - apply (proj1 (decode_unknown_for_every_integer 4)). lia.
  - apply (proj2 (decode_unknown_for_every_integer 300)). lia.
  - apply (proj2 (decode_unknown_for_every_integer (-1))). lia.
Defined.

Lemma response_without_exception_code_witness :
  fst (read_regs bare_error_client 0x3002 4 idle_world)
  = Raise (IOError
             "VFD Exception: Modbus Error: [Input/Output] No Response received").
Proof.
  apply (proj2 (proj1 (response_without_exception_code bare_error_client
                         0x3002 4 0 idle_world bare_error) eq_refl));
    reflexivity.
Defined.

Lemma write_jobs_report_once_witness :
  ui_queue (control_job refusing_client 1 polling_app)
  = [MsgFault "Control failed: VFD Exception: Operation failed"] /\
  wire (world (set_freq_job refusing_client 70000 polling_app))
  = [WriteSingle 0x2001 70000].
Proof.
  destruct (proj1 (write_jobs_report_once refusing_client 1 70000
                     polling_app) {| slave := 1 |} eq_refl) as [Hc Hf].
  rewrite Hc, Hf. split; reflexivity.
Defined.

Lemma command_is_fire_and_forget_witness :
  wire (world (send_control sample_hms 1 polling_app)) = [] /\
  threads (send_control sample_hms 1 polling_app)
  = [{| target := PollLoop; is_alive := true |};
     {| target := ControlJob 1; is_alive := true |}].
Proof.
  destruct (command_is_fire_and_forget refusing_client sample_hms sample_int
              1 polling_app {| slave := 1 |} eq_refl)
    as ((Hw & _ & _ & Ht) & _).
  split; [exact Hw|exact Ht].
Defined.

Lemma poll_cycle_touches_queue_and_bus_witness :
  ui_queue (poll_cycle silent_client fresh_app)
  = [MsgFault "'NoneType' object has no attribute 'read_regs'"].
Proof.
  apply (proj1 (proj2 (proj2 (proj2
           (poll_cycle_touches_queue_and_bus silent_client fresh_app))))).
  reflexivity.
Defined.

Lemma poll_cycle_malformed_answers_witness :
  ui_queue (poll_cycle short_client polling_app)
  = [MsgFault "not enough values to unpack (expected 4, got 3)"] /\
  wire (world (poll_cycle short_client polling_app))
  = [ReadHolding 0x3002 4].
Proof.
  apply (proj1 (poll_cycle_malformed_answers short_client polling_app
                  {| slave := 1 |} eq_refl) [540; 380; 42]).
  - reflexivity.
  - discriminate.
Defined.

Lemma disconnect_postcondition_witness :
  poll_stop_event (disconnect sample_hms (Joined (1 # 10)) polling_app) = true
  /\
  port_open (world (disconnect sample_hms (Joined (1 # 10)) polling_app))
  = false.
Proof.
  destruct (disconnect_postcondition silent_client sample_hms
              (Joined (1 # 10)) polling_app) as (_ & Hs & Hp & _).
  split.
  - apply Hs. discriminate.
  - apply Hp. discriminate.
Defined.

Lemma start_polling_takes_any_interval_witness :
  poll_thread (snd (start_polling sample_hms entry_int zero_interval_app))
  = Some 0%nat /\
  (cadence_sleep
     (time_time (snd (start_polling sample_hms entry_int zero_interval_app)))
     (poll_sample silent_client
        (snd (start_polling sample_hms entry_int zero_interval_app)))
   == 0)%Q /\
  start_polling sample_hms huge_int fresh_app
  = (Raise (OtherException "OverflowError"
                           "int too large to convert to float"),
     fresh_app).
Proof.
  destruct (start_polling_takes_any_interval silent_client sample_hms
              entry_int zero_interval_app I) as (_ & _ & Hok).
  destruct (Hok 0 (S754_zero false) eq_refl eq_refl)
    as (_ & _ & _ & Ht & _ & Hz).
  split; [exact Ht|]. split.
  - apply (Hz ltac:(lia)).
    + intros k rq. vm_compute. discriminate.
    + reflexivity.
  - apply (proj1 (proj2 (start_polling_takes_any_interval silent_client
                           sample_hms huge_int fresh_app I)) (10 ^ 400)).
    + reflexivity.
    + vm_compute. reflexivity.
Defined.

Lemma toggle_connect_failure_witness :
  errors_shown (toggle_connect absent_port_driver sample_hms entry_int
                  default_form TimedOut fresh_app)
  = [("Serial Error", "Could not open port /dev/ttyUSB0")] /\
  modbus (toggle_connect absent_port_driver sample_hms entry_int
            default_form TimedOut fresh_app) = None.
Proof.
  assert (Hfail : forall baud addr,
             ~ connect_succeeds absent_port_driver entry_int default_form
                 baud addr)
    by (intros baud addr (_ & _ & _ & H); discriminate H).
  destruct (toggle_connect_failure absent_port_driver sample_hms entry_int
              default_form TimedOut fresh_app eq_refl Hfail)
    as (_ & (Hm & _) & _ & _ & Hopen).
  split; [|exact Hm].
  exact (proj1 (proj1 (Hopen 9600 1 eq_refl eq_refl eq_refl) eq_refl)).
Defined.

Lemma toggle_connect_success_witness :
  modbus (toggle_connect working_driver sample_hms entry_int default_form
            TimedOut fresh_app) = Some {| slave := 1 |} /\
  poll_thread (toggle_connect working_driver sample_hms entry_int
                 default_form TimedOut fresh_app) = Some 0%nat /\
  errors_shown (toggle_connect working_driver sample_hms huge_int
                  default_form TimedOut fresh_app)
  = [("Error", "int too large to convert to float")].
Proof.
  assert (Hok : connect_succeeds working_driver entry_int default_form
                  9600 1) by (repeat split; reflexivity).
  assert (Hhuge : connect_succeeds working_driver huge_int default_form
                    (10 ^ 400) (10 ^ 400)) by (repeat split; reflexivity).
  destruct (toggle_connect_success working_driver sample_hms entry_int
              default_form TimedOut fresh_app 9600 1 eq_refl eq_refl Hok)
    as ((Hm & _) & Hn & _).
  split; [exact Hm|]. split.
  - exact (proj1 (Hn 500 (S754_finite false 4503599627370496 (-53))
                    eq_refl eq_refl)).
  - destruct (toggle_connect_success working_driver sample_hms huge_int
                default_form TimedOut fresh_app (10 ^ 400) (10 ^ 400)
                eq_refl eq_refl Hhuge) as (_ & _ & Hraise).
    apply (Hraise (OtherException "OverflowError"
                                  "int too large to convert to float")).
    right. exists (10 ^ 400). split; [reflexivity|].
    vm_compute. reflexivity.
Defined.

Lemma reconnect_revives_stale_loop_witness :
  thread_is_alive 0
    (run_poll_thread silent_client 0 1
       (toggle_connect working_driver sample_hms entry_int default_form
          TimedOut slow_polling_app)) = false /\
  threads (toggle_connect working_driver sample_hms entry_int default_form
             TimedOut
             (toggle_connect working_driver sample_hms entry_int
                default_form TimedOut slow_polling_app)) !! 0%nat
  = Some {| target := PollLoop; is_alive := true |} /\
  threads (toggle_connect working_driver sample_hms entry_int default_form
             TimedOut
             (toggle_connect working_driver sample_hms entry_int
                default_form TimedOut slow_polling_app)) !! 1%nat
  = Some {| target := PollLoop; is_alive := true |}.
Proof.
  assert (Hok : connect_succeeds working_driver entry_int default_form
                  9600 1) by (repeat split; reflexivity).
  destruct (reconnect_revives_stale_loop silent_client working_driver
              sample_hms entry_int default_form TimedOut slow_polling_app
              {| slave := 1 |} 0%nat 9600 1 5000
              (S754_finite false 5629499534213120 (-50))
              eq_refl eq_refl eq_refl Hok eq_refl eq_refl)
    as (_ & Hends & _ & H0 & H1 & _).
  split; [exact (proj1 (Hends 1%nat ltac:(lia)))|].
  split; [exact H0|exact H1].
Defined.

Lemma chart_series_window_witness :
  volts (feed sample_format [snapshot_1; snapshot_2] empty_view)
  = [380; 381] /\
  freqs (feed sample_format [snapshot_1; snapshot_2] empty_view)
  = [S754_finite false 7036874417766400 (-47); nan].
Proof.
  assert (Ha : aligned empty_view) by (repeat split; reflexivity).
  assert (Hl : (length (times empty_view) <= max_points)%nat)
    by (vm_compute; lia).
  destruct (chart_series_window sample_format [snapshot_1; snapshot_2]
              empty_view Ha Hl) as (_ & Hf & Hv & _).
  split; [exact Hv|exact Hf].
Defined.

Lemma update_data_redraws_witness :
  freq_var (update_data sample_format snapshot_2 empty_view) = "-".
Proof.
  destruct (update_data_redraws sample_format snapshot_2 empty_view)
    as (_ & _ & _ & _ & _ & _ & Hf & _).
  exact (Hf eq_refl).
Defined.

Lemma queued_faults_deduplicated_witness :
  errors_shown (app (process_ui_queue sample_hms sample_format
                       repeating_gui)) = [].
Proof.
  apply (proj2 (queued_faults_deduplicated sample_hms sample_format
                  repeating_gui) "Comm error: a").
  - reflexivity.
  - repeat constructor.
Defined.

Lemma sample_reaches_the_charts_witness :
  volt_var (view (process_ui_queue sample_hms sample_format
                    {| app := poll_cycle scenario_client polling_app;
                       view := empty_view |})) = "380" /\
  last (currs (view (process_ui_queue sample_hms sample_format
                       {| app := poll_cycle scenario_client polling_app;
                          view := empty_view |}))) = Some 42.
Proof.
  destruct (sample_reaches_the_charts scenario_client sample_hms
              sample_format polling_app {| slave := 1 |} empty_view
              (registers_response [540; 380; 42; 1450]) 540 380 42 1450
              eq_refl eq_refl eq_refl eq_refl eq_refl)
    as (_ & _ & Hv & _ & _ & _ & Hc & _).
  split; [exact Hv|exact Hc].
Defined.

Lemma button_follows_connection_witness :
  consistent (toggle_connect working_driver sample_hms entry_int
                default_form TimedOut fresh_app) /\
  consistent (poll_cycle silent_client polling_app).
Proof.
  assert (Hf : consistent fresh_app) by (split; reflexivity).
  assert (Hp : consistent polling_app) by reflexivity.
  split.
  - exact (proj1 (button_follows_connection silent_client working_driver
                    sample_hms entry_int sample_format fresh_app Hf)
             default_form TimedOut).
  - exact (proj1 (proj2 (proj2 (proj2
             (button_follows_connection silent_client working_driver
                sample_hms entry_int sample_format polling_app Hp))))).
Defined.

Lemma every_call_can_complete_witness :
  exists s' r,
    rtc step busy_state s' /\
    reachable s' /\
    tasks s' !! 1%nat = Some (mkTask busy_write (Left r)) /\
    (forall k, tasks busy_state !! k = None -> tasks s' !! k = None).
Proof.
  exact (every_call_can_complete busy_state 1 (mkTask busy_write Waiting)
           busy_state_reachable eq_refl).
Defined.
